(** * chaosk8s.crd.actions: custom-resource actions of chaostoolkit-kubernetes

    A shallow embedding of [chaosk8s/crd/actions.py] and the properties its
    specification states about it.

    Conventions of the embedding.
    - A Python [str] is a [string]; a character is a code point below 256.
      A Python [bytes] (the body of an answer) is a [string] too, one
      character a byte.
    - A Python value that travels through the code untyped (a decoded JSON or
      YAML document, a request body, a namespace read out of a document) is a
      [pyval].
    - A Python exception is a value of [exn]; code that may raise returns a
      [result].
    - Code that talks to the outside (file system, API server) runs in the
      monad [M], which carries the outcome and the list of [event]s in the
      order they happened.  The events are those of the module's own code:
      the files it opens and the calls it makes to the API client.
    - What lives outside the module (the JSON and YAML decoders, the file
      system, the API client factory and the API server) is a field of the
      record [World]; every statement is for all worlds. *)

From Stdlib Require Import Ascii NArith ZArith Bool.
From Stdlib Require PrimFloat.
From stdpp Require Import base option list strings gmap.

Local Open Scope Z_scope.

(* ===================================================================== *)
(** * Python strings *)
(* ===================================================================== *)

Module PyStr.

(** One code point of [str.lower()]: the upper-case letters below 256 are
    A-Z, and the Latin-1 letters 192-222 without the sign at 215; each has
    its lower-case form 32 positions further. *)
Definition lower_char (c : ascii) : ascii :=
  let n := N_of_ascii c in
  if (((65 <=? n) && (n <=? 90)) ||
      ((192 <=? n) && (n <=? 222) && negb (n =? 215)))%N
  then ascii_of_N (n + 32) else c.

(** [s.lower()] *)
Fixpoint lower (s : string) : string :=
  match s with
  | EmptyString => EmptyString
  | String c s' => String (lower_char c) (lower s')
  end.

(** [s[-1]], which raises IndexError on the empty string ([None] here). *)
Fixpoint last_char (s : string) : option ascii :=
  match s with
  | EmptyString => None
  | String c EmptyString => Some c
  | String _ s' => last_char s'
  end.

(** [s[:-1]] *)
Fixpoint drop_last (s : string) : string :=
  match s with
  | EmptyString => EmptyString
  | String _ EmptyString => EmptyString
  | String c s' => String c (drop_last s')
  end.

(** [s.endswith(suf)] *)
Fixpoint endswith (suf s : string) : bool :=
  if String.eqb s suf then true
  else match s with
       | EmptyString => false
       | String _ s' => endswith suf s'
       end.

(** The last occurrence of [sep] in [s]: what stands before it and what
    stands after it. *)
Fixpoint rpartition (sep : ascii) (s : string) : option (string * string) :=
  match s with
  | EmptyString => None
  | String c s' =>
      match rpartition sep s' with
      | Some (l, r) => Some (String c l, r)
      | None => if Ascii.eqb c sep then Some (EmptyString, s') else None
      end
  end.

(** [s.rsplit(sep, 1)] for a one-character separator: one split at most,
    taken from the right. *)
Definition rsplit1 (sep : ascii) (s : string) : list string :=
  match rpartition sep s with
  | Some (l, r) => [l; r]
  | None => [s]
  end.

(** [sep in s] *)
Fixpoint has_char (sep : ascii) (s : string) : bool :=
  match s with
  | EmptyString => false
  | String c s' => Ascii.eqb c sep || has_char sep s'
  end.

(** [needle in hay], as a proposition. *)
Definition contains (needle hay : string) : Prop :=
  exists pre post, hay = pre +:+ needle +:+ post.

(** [needle in hay], as a test. *)
Fixpoint containsb (needle hay : string) : bool :=
  if String.prefix needle hay then true
  else match hay with
       | EmptyString => false
       | String _ hay' => containsb needle hay'
       end.

End PyStr.

(* ===================================================================== *)
(** * Python bytes *)
(* ===================================================================== *)

Module PyBytes.

Definition squote : ascii := "'"%char.
Definition dquote : ascii := ascii_of_nat 34.
Definition backslash : ascii := "\"%char.

(** One hexadecimal digit, lower case. *)
Definition hex_digit (n : N) : ascii :=
  if (n <? 10)%N then ascii_of_N (48 + n) else ascii_of_N (87 + n).

(** One byte of a bytes literal: the delimiting quote and the backslash
    get a backslash, tab, newline and carriage return their letter, every
    other byte below 32 or from 127 on its two hexadecimal digits, the rest
    stands as it is. *)
Definition escape (quote c : ascii) : string :=
  let n := N_of_ascii c in
  if Ascii.eqb c quote || Ascii.eqb c backslash then String backslash (String c "")
  else if (n =? 9)%N then String backslash "t"
  else if (n =? 10)%N then String backslash "n"
  else if (n =? 13)%N then String backslash "r"
  else if ((n <? 32) || (127 <=? n))%N then
    String backslash
      (String "x" (String (hex_digit (n / 16)) (String (hex_digit (n mod 16)) "")))
  else String c "".

Fixpoint escape_all (quote : ascii) (b : string) : string :=
  match b with
  | EmptyString => EmptyString
  | String c b' => escape quote c +:+ escape_all quote b'
  end.

(** [repr(b)], which is also [str(b)] and what an f-string makes of [b]:
    the literal in single quotes, or in double quotes when [b] holds a
    single quote and no double quote. *)
Definition repr (b : string) : string :=
  let quote :=
    if PyStr.has_char squote b && negb (PyStr.has_char dquote b)
    then dquote else squote in
  String "b" (String quote (escape_all quote b +:+ String quote "")).

(** A byte that stands for itself in a literal in single quotes. *)
Definition plain (c : ascii) : bool :=
  let n := N_of_ascii c in
  ((32 <=? n) && (n <? 127))%N && negb (Ascii.eqb c squote) &&
  negb (Ascii.eqb c backslash).

Fixpoint all_plain (b : string) : bool :=
  match b with
  | EmptyString => true
  | String c b' => plain c && all_plain b'
  end.

End PyBytes.

(* ===================================================================== *)
(** * Exceptions and results *)
(* ===================================================================== *)

(** The exceptions the module raises or lets through.  [ActivityFailed] is
    chaoslib's failure of an activity: the module raises it both for invalid
    input and for a failed API operation.  [ApiException] is the API client's
    exception for a response outside 2xx, and [ApiTypeError] its exception
    for a keyword argument a method does not have.  [OSError] stands for
    what opening and reading a file may raise (an OSError, or
    UnicodeDecodeError where the bytes are no text in the encoding of the
    locale).  [DecodeError] stands for what the decoder at hand raises on
    text it cannot read: json.JSONDecodeError from [json.loads],
    yaml.YAMLError from [yaml.safe_load].  These are two classes in Python;
    nothing here rests on an exception of the one decoder being that of the
    other. *)
Inductive exn : Type :=
| ActivityFailed (msg : string)
| ApiException (status : Z) (reason body : string)
| AttributeError
| IndexError
| ValueError
| OSError
| DecodeError
| ApiTypeError.

Inductive result (A : Type) : Type :=
| Ok (a : A)
| Raise (e : exn).
Arguments Ok {A} a.
Arguments Raise {A} e.

(* ===================================================================== *)
(** * The kind pluralizer *)
(* ===================================================================== *)

(** [get_plural(singular)] *)
Definition get_plural (singular : string) : result string :=
  let singular := PyStr.lower singular in
  if String.eqb singular "endpoints" then Ok singular
  else
    match PyStr.last_char singular with
    | None => Raise IndexError
    | Some last =>
        if Ascii.eqb last "s" then Ok (singular +:+ "es")
        else if Ascii.eqb last "y" then Ok (PyStr.drop_last singular +:+ "ies")
        else Ok (singular +:+ "s")
    end.

(** The pluralisation rule in the words of the specification: lower-case the
    input; "endpoints" maps to itself; a string that ends in "s" gets "es";
    else one that ends in "y" loses the "y" and gets "ies"; else "s" is
    appended. *)
Definition pluralize (kind : string) : string :=
  let k := PyStr.lower kind in
  if String.eqb k "endpoints" then k
  else if PyStr.endswith "s" k then k +:+ "es"
  else if PyStr.endswith "y" k then PyStr.drop_last k +:+ "ies"
  else k +:+ "s".

(* ===================================================================== *)
(** * Python values *)
(* ===================================================================== *)

(** The values a decoded JSON or YAML document is made of.  A dict keeps its
    items in insertion order; a key is looked up from the front. *)
#[warnings="-register-all"]
Inductive pyval : Type :=
| PNone
| PBool (b : bool)
| PInt (n : Z)
| PFloat (f : PrimFloat.float)
| PStr (s : string)
| PList (items : list pyval)
| PDict (items : list (string * pyval)).

Module Py.

(** [d[key]] for a dict given by its items. *)
Fixpoint lookup (items : list (string * pyval)) (key : string) : option pyval :=
  match items with
  | [] => None
  | (k, v) :: rest => if String.eqb k key then Some v else lookup rest key
  end.

(** [obj.get(key, default)]: only a dict has the method. *)
Definition get (obj : pyval) (key : string) (default : pyval) : result pyval :=
  match obj with
  | PDict items => Ok (from_option id default (lookup items key))
  | _ => Raise AttributeError
  end.

(** [bool(v)], the truth value [not v] negates. *)
Definition truthy (v : pyval) : bool :=
  match v with
  | PNone => false
  | PBool b => b
  | PInt n => negb (n =? 0)
  | PFloat f => negb (PrimFloat.eqb f PrimFloat.zero)
  | PStr s => negb (String.eqb s "")
  | PList items => negb (Nat.eqb (length items) 0)
  | PDict items => negb (Nat.eqb (length items) 0)
  end.

(** [v is None] *)
Definition is_none (v : pyval) : bool :=
  match v with PNone => true | _ => false end.

(** [bool(p)] for a file path that is None or a str. *)
Definition truthy_path (p : option string) : bool :=
  match p with
  | None => false
  | Some s => negb (String.eqb s "")
  end.

(** [a, b = v.rsplit(sep, 1)]: only a str has the method, and the
    unpacking raises ValueError unless the split has two parts. *)
Definition rsplit1_pair (v : pyval) (sep : ascii) : result (string * string) :=
  match v with
  | PStr s =>
      match PyStr.rsplit1 sep s with
      | [a; b] => Ok (a, b)
      | _ => Raise ValueError
      end
  | _ => Raise AttributeError
  end.

End Py.

(** [get_plural(kind)] on a value read out of a document: [kind.lower()] is
    the first thing the function does, and only a str has the method. *)
Definition get_plural_of (kind : pyval) : result string :=
  match kind with
  | PStr s => get_plural s
  | _ => Raise AttributeError
  end.

(* ===================================================================== *)
(** * The API client and the world around the module *)
(* ===================================================================== *)

(** The methods of [kubernetes.client.CustomObjectsApi] the module calls, each
    with the arguments the module passes, in the order of the client's
    signature.  Every call is made with [_preload_content=False]. *)
Inductive api_call : Type :=
| create_namespaced_custom_object
    (group version : string) (namespace : pyval) (plural : string) (body : pyval)
| delete_namespaced_custom_object
    (group version namespace plural name : string)
| create_cluster_custom_object_
    (group version plural : string) (body : pyval)
| delete_cluster_custom_object_
    (group version plural name : string)
| patch_namespaced_custom_object
    (group version namespace plural name : string) (body : pyval)
| replace_namespaced_custom_object
    (group version namespace plural name : string) (body : pyval) (force : bool)
| patch_cluster_custom_object_
    (group version plural name : string) (body : pyval)
| replace_cluster_custom_object_
    (group version plural name : string) (body : pyval) (force : bool).

(** What the server answers: status line and raw body.  The module asks
    for the raw answer ([_preload_content=False]), so [data] is bytes. *)
Record http_response : Type := HttpResponse {
  status : Z;
  reason : string;
  data : string
}.

(** The API client: the part of its state the module touches is the table of
    default headers, which the client sends with every request.  Every
    operation asks the factory for a client of its own. *)
Record ApiClient : Type := { default_headers : gmap string string }.

(** [api_client.set_default_header(name, value)] *)
Definition set_default_header (c : ApiClient) (name value : string) : ApiClient :=
  {| default_headers := <[name := value]> (default_headers c) |}.

(** The secrets the runtime hands to an activity; the module passes them on
    unread. *)
Definition Secrets : Type := option (list (string * string)).

(** What the module does to the outside, in the order it does it: a file
    it opens, a line it logs, a call it makes to a method of the API client.
    An [ApiRequest] is one such call, with the default headers of the
    client at that moment; how often the client's transport then puts it on
    the wire (it sends a request again on an answer that tells it to retry)
    is the client's business and not recorded. *)
Inductive event : Type :=
| FileRead (path : string)
| LogDebug (msg : string)
| ApiRequest (headers : gmap string string) (call : api_call).

(** The collaborators of the module.  [create_k8s_api_client] is the client
    factory of the package ([chaosk8s/__init__.py]); what it reads on the
    way (a kubeconfig, the environment) is its own and leaves no event.  [json_decode] and
    [yaml_decode] say what [json.loads] and [yaml.safe_load] make of a text,
    [None] where they raise.  [isfile] and [file_text] are the file system:
    whether a path names a regular file, and what reading it gives, [None]
    where the read fails.  [api_server] answers a request sent with the
    given headers. *)
Record World : Type := {
  json_decode : string -> option pyval;
  yaml_decode : string -> option pyval;
  isfile : string -> bool;
  file_text : string -> option string;
  create_k8s_api_client : Secrets -> ApiClient;
  api_server : gmap string string -> api_call -> http_response
}.

(* ===================================================================== *)
(** * The monad of the module: outcome and trace *)
(* ===================================================================== *)

Definition M (A : Type) : Type := (result A * list event)%type.

Definition raise {A} (e : exn) : M A := (Raise e, []).
Definition lift {A} (r : result A) : M A := (r, []).
Definition emit (e : event) : M unit := (Ok tt, [e]).

(** Sequencing: the second step runs when the first returns, and the traces
    follow one another; an exception ends the run. *)
Global Instance M_ret : MRet M := fun A a => (Ok a, []).
Global Instance M_bind : MBind M := fun A B k m =>
  match m with
  | (Ok a, t) => let '(r, t') := k a in (r, t ++ t')
  | (Raise e, t) => (Raise e, t)
  end.

(** [try: m  except ApiException as x: handler(x)]: any other exception
    passes through. *)
Definition try_except_ApiException {A} (m : M A)
    (handler : Z -> string -> string -> M A) : M A :=
  match m with
  | (Raise (ApiException st rs bd), t) =>
      let '(r, t') := handler st rs bd in (r, t ++ t')
  | _ => m
  end.

(** The outcome of a decoder: the value, or the exception of that decoder
    (see [DecodeError]). *)
Definition decoded {A} (o : option A) : result A :=
  match o with
  | Some v => Ok v
  | None => Raise DecodeError
  end.

(** A status of success. *)
Definition is_2xx (st : Z) : bool := (200 <=? st) && (st <=? 299).

(** The requests of a trace, each with the headers it was sent with. *)
Definition sent (t : list event) : list (gmap string string * api_call) :=
  omap (fun e => match e with ApiRequest h c => Some (h, c) | _ => None end) t.

(** The requests of a trace. *)
Definition requests (t : list event) : list api_call := (sent t).*2.

(* ===================================================================== *)
(** * The module *)
(* ===================================================================== *)

Section Actions.

Context (w : World).

(** One call of a method of the API client, with positional arguments and
    [_preload_content=False].  The client sends the request with its
    default headers; it returns the response when the status is in
    200..299 and raises ApiException, carrying status, reason and body
    (bytes) of the response, otherwise.  The arguments are taken as they
    come: the client's own refusal of an argument that is None is not part
    of this. *)
Definition call_api (api : ApiClient) (call : api_call) : M string :=
  let r := api_server w (default_headers api) call in
  emit (ApiRequest (default_headers api) call);;
  if is_2xx (status r) then mret (data r)
  else raise (ApiException (status r) (reason r) (data r)).

(** A call of a client method with the keyword argument [force].  The
    replace methods of the client, the only ones the module calls so, have
    no such parameter: the client raises ApiTypeError before a request is
    made, whatever the value of [force]. *)
Definition call_api_with_force (api : ApiClient) (call : api_call) : M string :=
  raise ApiTypeError.

(** [json.loads(text)] *)
Definition json_loads (text : string) : M pyval :=
  lift (decoded (json_decode w text)).

(** [yaml.safe_load(text)] *)
Definition yaml_safe_load (text : string) : M pyval :=
  lift (decoded (yaml_decode w text)).

(** [open(path).read()]; [OSError] stands for whatever the open or the
    read raises. *)
Definition read (path : string) : M string :=
  emit (FileRead path);;
  match file_text w path with
  | Some text => mret text
  | None => raise OSError
  end.

(** [load_body(body_as_object, body_as_yaml_file)] *)
Definition load_body (body_as_object : pyval)
    (body_as_yaml_file : option string) : M pyval :=
  if Py.is_none body_as_object && negb (Py.truthy_path body_as_yaml_file) then
    raise (ActivityFailed
             "Either `body_as_object` or `body_as_yaml_file` must be set")
  else if negb (Py.is_none body_as_object) then
    mret body_as_object
  else
    (* the path is a non-empty str on this branch *)
    let path := default "" body_as_yaml_file in
    if negb (isfile w path) then
      raise (ActivityFailed ("Path '" +:+ path +:+ "' is not a valid resource file"))
    else
      text ← read path;
      yaml_safe_load text.

(** [create_custom_object(group, version, plural, ns, resource,
    resource_as_yaml_file, secrets)].  [ns] and [resource] are values: the
    apply operations pass on what they read, unchecked. *)
Definition create_custom_object (group version plural : string) (ns : pyval)
    (resource : pyval) (resource_as_yaml_file : option string)
    (secrets : Secrets) : M pyval :=
  let api := create_k8s_api_client w secrets in
  body ← load_body resource resource_as_yaml_file;
  try_except_ApiException
    (r ← call_api api
            (create_namespaced_custom_object group version ns plural body);
     json_loads r)
    (fun x_status x_reason x_body =>
       if x_status =? 409 then
         emit (LogDebug ("Custom resource object " +:+ group +:+ "/" +:+
                         version +:+ " already exists"));;
         json_loads x_body
       else
         raise (ActivityFailed
                  ("Failed to create custom resource object: '" +:+
                   x_reason +:+ "' " +:+ PyBytes.repr x_body))).

(** [delete_custom_object(group, version, plural, name, ns, secrets)] *)
Definition delete_custom_object (group version plural name ns : string)
    (secrets : Secrets) : M pyval :=
  let api := create_k8s_api_client w secrets in
  try_except_ApiException
    (r ← call_api api
            (delete_namespaced_custom_object group version ns plural name);
     json_loads r)
    (fun x_status x_reason x_body =>
       raise (ActivityFailed
                ("Failed to delete custom resource object: '" +:+
                 x_reason +:+ "' " +:+ PyBytes.repr x_body))).

(** [create_cluster_custom_object(group, version, plural, resource,
    resource_as_yaml_file, secrets)].  The message of the failure is a
    plain string literal in the source, not an f-string: the braces stay
    as they are written. *)
Definition create_cluster_custom_object (group version plural : string)
    (resource : pyval) (resource_as_yaml_file : option string)
    (secrets : Secrets) : M pyval :=
  let api := create_k8s_api_client w secrets in
  body ← load_body resource resource_as_yaml_file;
  try_except_ApiException
    (r ← call_api api (create_cluster_custom_object_ group version plural body);
     json_loads r)
    (fun x_status x_reason x_body =>
       if x_status =? 409 then
         emit (LogDebug ("Custom resource object " +:+ group +:+ "/" +:+
                         version +:+ " already exists"));;
         json_loads x_body
       else
         raise (ActivityFailed
                  "Failed to create custom resource object: '{x.reason}' {x.body}")).

(** [delete_cluster_custom_object(group, version, plural, name, secrets)] *)
Definition delete_cluster_custom_object (group version plural name : string)
    (secrets : Secrets) : M pyval :=
  let api := create_k8s_api_client w secrets in
  try_except_ApiException
    (r ← call_api api (delete_cluster_custom_object_ group version plural name);
     json_loads r)
    (fun x_status x_reason x_body =>
       raise (ActivityFailed
                ("Failed to delete custom resource object: '" +:+
                 x_reason +:+ "' " +:+ PyBytes.repr x_body))).

(** [patch_custom_object(group, version, plural, name, ns, force, resource,
    resource_as_yaml_file, secrets)].  The body of the source never reads
    [force]. *)
Definition patch_custom_object (group version plural name ns : string)
    (force : bool) (resource : pyval) (resource_as_yaml_file : option string)
    (secrets : Secrets) : M pyval :=
  let api := create_k8s_api_client w secrets in
  body ← load_body resource resource_as_yaml_file;
  try_except_ApiException
    (let api := set_default_header api "Content-Type" "application/json-patch+json" in
     r ← call_api api
            (patch_namespaced_custom_object group version ns plural name body);
     json_loads r)
    (fun x_status x_reason x_body =>
       raise (ActivityFailed
                ("Failed to patch custom resource object: '" +:+
                 x_reason +:+ "' " +:+ PyBytes.repr x_body))).

(** [replace_custom_object(group, version, plural, name, ns, force,
    resource, resource_as_yaml_file, secrets)].  The call passes
    [force=force]. *)
Definition replace_custom_object (group version plural name ns : string)
    (force : bool) (resource : pyval) (resource_as_yaml_file : option string)
    (secrets : Secrets) : M pyval :=
  let api := create_k8s_api_client w secrets in
  body ← load_body resource resource_as_yaml_file;
  try_except_ApiException
    (r ← call_api_with_force api
            (replace_namespaced_custom_object group version ns plural name body force);
     json_loads r)
    (fun x_status x_reason x_body =>
       raise (ActivityFailed
                ("Failed to replace custom resource object: '" +:+
                 x_reason +:+ "' " +:+ PyBytes.repr x_body))).

(** [patch_cluster_custom_object(group, version, plural, name, force,
    resource, resource_as_yaml_file, secrets)].  The body of the source
    never reads [force]. *)
Definition patch_cluster_custom_object (group version plural name : string)
    (force : bool) (resource : pyval) (resource_as_yaml_file : option string)
    (secrets : Secrets) : M pyval :=
  let api := create_k8s_api_client w secrets in
  body ← load_body resource resource_as_yaml_file;
  try_except_ApiException
    (let api := set_default_header api "Content-Type" "application/json-patch+json" in
     r ← call_api api (patch_cluster_custom_object_ group version plural name body);
     json_loads r)
    (fun x_status x_reason x_body =>
       raise (ActivityFailed
                ("Failed to patch custom resource object: '" +:+
                 x_reason +:+ "' " +:+ PyBytes.repr x_body))).

(** [replace_cluster_custom_object(group, version, plural, name, force,
    resource, resource_as_yaml_file, secrets)].  The call passes
    [force=force]. *)
Definition replace_cluster_custom_object (group version plural name : string)
    (force : bool) (resource : pyval) (resource_as_yaml_file : option string)
    (secrets : Secrets) : M pyval :=
  let api := create_k8s_api_client w secrets in
  body ← load_body resource resource_as_yaml_file;
  try_except_ApiException
    (r ← call_api_with_force api
            (replace_cluster_custom_object_ group version plural name body force);
     json_loads r)
    (fun x_status x_reason x_body =>
       raise (ActivityFailed
                ("Failed to replace custom resource object: '" +:+
                 x_reason +:+ "' " +:+ PyBytes.repr x_body))).

(** [apply_from_json(resource, secrets)].  The last line passes [resource],
    the text, on to [create_custom_object], not the decoded [obj]. *)
Definition apply_from_json (resource : string) (secrets : Secrets) : M pyval :=
  obj ← json_loads resource;
  api_version ← lift (Py.get obj "apiVersion" PNone);
  kind ← lift (Py.get obj "kind" PNone);
  metadata ← lift (Py.get obj "metadata" (PDict []));
  ns ← lift (Py.get metadata "namespace" (PStr "default"));
  if negb (Py.truthy api_version) then
    raise (ActivityFailed "missing apiVersion in resource")
  else if negb (Py.truthy kind) then
    raise (ActivityFailed "missing kind in resource")
  else
    gv ← lift (Py.rsplit1_pair api_version "/");
    plural ← lift (get_plural_of kind);
    create_custom_object gv.1 gv.2 plural ns (PStr resource) None secrets.

(** [apply_from_yaml(resource, secrets)] *)
Definition apply_from_yaml (resource : string) (secrets : Secrets) : M pyval :=
  obj ← yaml_safe_load resource;
  api_version ← lift (Py.get obj "apiVersion" PNone);
  kind ← lift (Py.get obj "kind" PNone);
  metadata ← lift (Py.get obj "metadata" (PDict []));
  ns ← lift (Py.get metadata "namespace" (PStr "default"));
  if negb (Py.truthy api_version) then
    raise (ActivityFailed "missing apiVersion in resource")
  else if negb (Py.truthy kind) then
    raise (ActivityFailed "missing kind in resource")
  else
    gv ← lift (Py.rsplit1_pair api_version "/");
    plural ← lift (get_plural_of kind);
    create_custom_object gv.1 gv.2 plural ns (PStr resource) None secrets.

End Actions.

(* ===================================================================== *)
(** * Resource documents *)
(* ===================================================================== *)

Module Doc.

(** The metadata of a resource document is optional and, when there, a
    mapping. *)
Definition metadata_ok (items : list (string * pyval)) : bool :=
  match Py.lookup items "metadata" with
  | None | Some (PDict _) => true
  | Some _ => false
  end.

(** [metadata.namespace] of a document, or "default" when the document
    has none. *)
Definition namespace_of (items : list (string * pyval)) : pyval :=
  match Py.lookup items "metadata" with
  | Some (PDict meta) => default (PStr "default") (Py.lookup meta "namespace")
  | _ => PStr "default"
  end.

(** [metadata.namespace] is absent: there is no metadata, or the metadata
    has no namespace. *)
Definition namespace_absent (items : list (string * pyval)) : bool :=
  match Py.lookup items "metadata" with
  | None => true
  | Some (PDict meta) => bool_decide (Py.lookup meta "namespace" = None)
  | Some _ => false
  end.

End Doc.

(* ===================================================================== *)
(** * Words for the statements *)
(* ===================================================================== *)

(** The message of a failed operation: what it was, the reason of the
    answer, and the body of the answer as the f-string renders bytes. *)
Definition failure (what : string) (rsp : http_response) : exn :=
  ActivityFailed ("Failed to " +:+ what +:+ " custom resource object: '" +:+
                  reason rsp +:+ "' " +:+ PyBytes.repr (data rsp)).

(** The note the create operations log when the object is there already. *)
Definition already_exists_note (group version : string) : event :=
  LogDebug ("Custom resource object " +:+ group +:+ "/" +:+ version +:+
            " already exists").

(** The header a patch request is to carry. *)
Definition json_patch : string := "application/json-patch+json".

(** What the apply operations do with a decoded resource document
    [PDict items] that came as the text [resource]: the two guards, the
    split of apiVersion, the plural of kind, and the create call. *)
Definition apply_document (w : World) (items : list (string * pyval))
    (resource : string) (secrets : Secrets) : M pyval :=
  let api_version := default PNone (Py.lookup items "apiVersion") in
  let kind := default PNone (Py.lookup items "kind") in
  if negb (Py.truthy api_version) then
    raise (ActivityFailed "missing apiVersion in resource")
  else if negb (Py.truthy kind) then
    raise (ActivityFailed "missing kind in resource")
  else
    match Py.rsplit1_pair api_version "/" with
    | Raise e => raise e
    | Ok gv =>
        match get_plural_of kind with
        | Raise e => raise e
        | Ok plural =>
            create_custom_object w gv.1 gv.2 plural (Doc.namespace_of items)
              (PStr resource) None secrets
        end
    end.

(** What the apply operations do with what the decoder made of the text:
    its exception when it raised, AttributeError unless the value is a
    mapping whose metadata is absent or a mapping, and [apply_document]
    else. *)
Definition apply_decoded (w : World) (doc : option pyval) (resource : string)
    (secrets : Secrets) : M pyval :=
  match doc with
  | None => raise DecodeError
  | Some (PDict items) =>
      if Doc.metadata_ok items then apply_document w items resource secrets
      else raise AttributeError
  | Some _ => raise AttributeError
  end.

(** The headers an operation sends: the default headers of the client the
    factory made, and for a patch those with the content type set. *)
Definition client_headers (w : World) (secrets : Secrets) : gmap string string :=
  default_headers (create_k8s_api_client w secrets).

Definition patch_headers (w : World) (secrets : Secrets) : gmap string string :=
  <["Content-Type" := json_patch]> (client_headers w secrets).

(** [run] is the run of an apply operation on [text], and [doc] is what
    the decoder of that operation makes of the text. *)
Definition applies (w : World) (text : string) (secrets : Secrets)
    (run : M pyval) (doc : option pyval) : Prop :=
  (run = apply_from_json w text secrets /\ doc = json_decode w text) \/
  (run = apply_from_yaml w text secrets /\ doc = yaml_decode w text).

(** [isinstance(v, dict)] and [isinstance(v, str)] *)
Definition is_mapping (v : pyval) : bool :=
  match v with PDict _ => true | _ => false end.

Definition is_str (v : pyval) : bool :=
  match v with PStr _ => true | _ => false end.

(** The files a trace reads. *)
Definition reads (t : list event) : list string :=
  omap (fun e => match e with FileRead p => Some p | _ => None end) t.

(** A run ends in ActivityFailed, and the message holds the reason of the
    answer [rsp] and the bytes literal of its body; the body itself stands
    in the message, byte for byte, when all its bytes are plain. *)
Definition reports (run : M pyval) (rsp : http_response) : Prop :=
  exists msg, run.1 = Raise (ActivityFailed msg) /\
              PyStr.contains (reason rsp) msg /\
              PyStr.contains (PyBytes.repr (data rsp)) msg /\
              (PyBytes.all_plain (data rsp) = true -> PyStr.contains (data rsp) msg).

(* ===================================================================== *)
(** * A small world to run the module in *)
(* ===================================================================== *)

Module Example.

Definition dq : string := String (ascii_of_nat 34) "".
Definition quoted (s : string) : string := dq +:+ s +:+ dq.

(** The document of the end-to-end example of the specification, as JSON
    text, as YAML text and decoded. *)
Definition widget_json : string :=
  "{" +:+ quoted "apiVersion" +:+ ":" +:+ quoted "example.com/v1" +:+ "," +:+
  quoted "kind" +:+ ":" +:+ quoted "Widget" +:+ "," +:+
  quoted "metadata" +:+ ":{" +:+ quoted "namespace" +:+ ":" +:+ quoted "ns1" +:+ "}," +:+
  quoted "spec" +:+ ":{" +:+ quoted "size" +:+ ":3}}".

Definition widget_yaml : string :=
"apiVersion: example.com/v1
kind: Widget
metadata:
  namespace: ns1
spec:
  size: 3
".

Definition widget : pyval :=
  PDict [("apiVersion", PStr "example.com/v1");
         ("kind", PStr "Widget");
         ("metadata", PDict [("namespace", PStr "ns1")]);
         ("spec", PDict [("size", PInt 3)])].

(** Documents that lack a field, and one whose apiVersion has no slash. *)
Definition no_api_version_json : string :=
  "{" +:+ quoted "kind" +:+ ":" +:+ quoted "Widget" +:+ "}".
Definition no_api_version : pyval := PDict [("kind", PStr "Widget")].

Definition no_kind_yaml : string :=
"apiVersion: example.com/v1
metadata:
  name: w1
".
Definition no_kind : pyval :=
  PDict [("apiVersion", PStr "example.com/v1");
         ("metadata", PDict [("name", PStr "w1")])].

Definition core_pod_json : string :=
  "{" +:+ quoted "apiVersion" +:+ ":" +:+ quoted "v1" +:+ "," +:+
  quoted "kind" +:+ ":" +:+ quoted "Pod" +:+ "}".
Definition core_pod : pyval := PDict [("apiVersion", PStr "v1"); ("kind", PStr "Pod")].

(** A document whose apiVersion has two slashes. *)
Definition two_slashes_yaml : string :=
"apiVersion: example.com/apps/v1
kind: Policy
".
Definition two_slashes : pyval :=
  PDict [("apiVersion", PStr "example.com/apps/v1"); ("kind", PStr "Policy")].

(** What a server says about a widget that is already there, and about a
    caller it does not let in. *)
Definition already_exists_json : string :=
  "{" +:+ quoted "kind" +:+ ":" +:+ quoted "Status" +:+ "," +:+
  quoted "reason" +:+ ":" +:+ quoted "AlreadyExists" +:+ "," +:+
  quoted "code" +:+ ":409}".
Definition already_exists : pyval :=
  PDict [("kind", PStr "Status"); ("reason", PStr "AlreadyExists"); ("code", PInt 409)].

Definition denied_json : string :=
  "{" +:+ quoted "kind" +:+ ":" +:+ quoted "Status" +:+ "," +:+
  quoted "code" +:+ ":403}".

Definition conflict : http_response := HttpResponse 409 "Conflict" already_exists_json.
Definition forbidden : http_response := HttpResponse 403 "Forbidden" denied_json.
Definition created : http_response := HttpResponse 201 "Created" widget_json.

(** A JSON Patch document. *)
Definition resize : pyval :=
  PList [PDict [("op", PStr "replace"); ("path", PStr "/spec/size"); ("value", PInt 5)]].

(** The decoders of this world know the texts above. *)
Definition known : list (string * pyval) :=
  [(widget_json, widget); (widget_yaml, widget);
   (no_api_version_json, no_api_version); (no_kind_yaml, no_kind);
   (core_pod_json, core_pod); (two_slashes_yaml, two_slashes);
   (already_exists_json, already_exists)].

Definition decode (text : string) : option pyval := Py.lookup known text.

Definition client : ApiClient :=
  {| default_headers := {[ "User-Agent" := "OpenAPI-Generator/python" ]} |}.

(** A world with one file, [widget.yaml], and a server that gives the same
    answer to every request. *)
Definition world (answer : http_response) : World := {|
  json_decode := decode;
  yaml_decode := decode;
  isfile := fun path => String.eqb path "widget.yaml";
  file_text := fun path =>
    if String.eqb path "widget.yaml" then Some widget_yaml else None;
  create_k8s_api_client := fun _ => client;
  api_server := fun _ _ => answer
|}.

End Example.

(* ===================================================================== *)
(** * Texts that are no resource documents *)
(* ===================================================================== *)

Module Malformed.

(** A YAML document whose metadata is left empty: the decoder makes null
    of it. *)
Definition null_metadata_yaml : string :=
"kind: Widget
metadata:
".
Definition null_metadata : pyval :=
  PDict [("kind", PStr "Widget"); ("metadata", PNone)].

(** A JSON list. *)
Definition list_json : string := "[]".

(** Documents whose fields have the wrong type or no content. *)
Definition empty_api_version_json : string :=
  "{" +:+ Example.quoted "apiVersion" +:+ ":" +:+ Example.quoted "" +:+ "," +:+
  Example.quoted "kind" +:+ ":7}".
Definition empty_api_version : pyval :=
  PDict [("apiVersion", PStr ""); ("kind", PInt 7)].

Definition numeric_kind_json : string :=
  "{" +:+ Example.quoted "apiVersion" +:+ ":" +:+ Example.quoted "example.com/v1" +:+
  "," +:+ Example.quoted "kind" +:+ ":7}".
Definition numeric_kind : pyval :=
  PDict [("apiVersion", PStr "example.com/v1"); ("kind", PInt 7)].

Definition known : list (string * pyval) :=
  [(null_metadata_yaml, null_metadata); (list_json, PList []);
   (empty_api_version_json, empty_api_version); (numeric_kind_json, numeric_kind)].

(** A world whose decoders know these texts, with no files, and a server
    that would accept anything. *)
Definition world : World := {|
  json_decode := Py.lookup known;
  yaml_decode := Py.lookup known;
  isfile := fun _ => false;
  file_text := fun _ => None;
  create_k8s_api_client := fun _ => Example.client;
  api_server := fun _ _ => Example.created
|}.

End Malformed.

(* ===================================================================== *)
(** * Facts about strings *)
(* ===================================================================== *)

Section StringFacts.

Lemma append_assoc (a b c : string) : (a +:+ b) +:+ c = a +:+ (b +:+ c).
Proof.
  induction a as [|x a IH]; [reflexivity|].
  change (String x ((a +:+ b) +:+ c) = String x (a +:+ (b +:+ c))).
  by rewrite IH.
Qed.

Lemma append_empty_r (a : string) : a +:+ "" = a.
Proof.
  induction a as [|x a IH]; [reflexivity|].
  change (String x (a +:+ "") = String x a). by rewrite IH.
Qed.

Lemma lower_char_idem c : PyStr.lower_char (PyStr.lower_char c) = PyStr.lower_char c.
Proof. destruct c as [[] [] [] [] [] [] [] []]; reflexivity. Qed.

Lemma lower_idem s : PyStr.lower (PyStr.lower s) = PyStr.lower s.
Proof.
  induction s as [|c s IH]; simpl; [reflexivity|].
  by rewrite lower_char_idem, IH.
Qed.

Lemma lower_empty_iff s : PyStr.lower s = "" <-> s = "".
Proof. destruct s; simpl; split; congruence. Qed.

Lemma last_char_None s : PyStr.last_char s = None <-> s = "".
Proof.
  induction s as [|c s IH]; simpl; [tauto|].
  destruct s; [split; discriminate|].
  rewrite IH. split; discriminate.
Qed.

Lemma last_char_Some s : s <> "" -> exists c, PyStr.last_char s = Some c.
Proof.
  intros Hs. destruct (PyStr.last_char s) as [c|] eqn:E; [eauto|].
  apply last_char_None in E. contradiction.
Qed.

(** A string ends with a one-character suffix when its last character is
    that character. *)
Lemma endswith_last_char a s c :
  PyStr.last_char s = Some c ->
  PyStr.endswith (String a "") s = Ascii.eqb c a.
Proof.
  induction s as [|c0 s IH]; [discriminate|].
  destruct s as [|c1 s].
  - simpl. intros [= ->]. destruct (Ascii.eqb c a); reflexivity.
  - intros H. change (PyStr.last_char (String c1 s) = Some c) in H.
    specialize (IH H).
    cbn [PyStr.endswith]. cbn [PyStr.endswith] in IH.
    replace (String.eqb (String c0 (String c1 s)) (String a "")) with false.
    + exact IH.
    + simpl. destruct (Ascii.eqb c0 a); reflexivity.
Qed.

(** Splitting from the right finds nothing when the separator does not
    occur. *)
Lemma rpartition_None sep s :
  PyStr.rpartition sep s = None <-> PyStr.has_char sep s = false.
Proof.
  induction s as [|c s IH]; simpl; [tauto|].
  destruct (PyStr.rpartition sep s) as [[l r]|].
  - split; [discriminate|]. intros H. apply orb_false_iff in H as [_ H].
    apply IH in H. discriminate.
  - destruct (Ascii.eqb c sep); simpl; [split; discriminate|].
    split; intros _; [by apply IH | reflexivity].
Qed.

(** Splitting from the right cuts at the last separator: nothing after
    the cut contains one. *)
Lemma rpartition_app sep l r :
  PyStr.has_char sep r = false ->
  PyStr.rpartition sep (l +:+ String sep r) = Some (l, r).
Proof.
  intros Hr. induction l as [|c l IH]; simpl.
  - apply rpartition_None in Hr. rewrite Hr.
    by rewrite Ascii.eqb_refl.
  - by rewrite IH.
Qed.

Lemma rpartition_Some sep s l r :
  PyStr.rpartition sep s = Some (l, r) ->
  s = l +:+ String sep r /\ PyStr.has_char sep r = false.
Proof.
  revert l. induction s as [|c s IH]; intros l; simpl; [discriminate|].
  destruct (PyStr.rpartition sep s) as [[l' r']|] eqn:E.
  - intros [= <- <-]. destruct (IH l' eq_refl) as [-> H]. by split.
  - destruct (Ascii.eqb c sep) eqn:Ec; [|discriminate].
    intros [= <- <-]. apply Ascii.eqb_eq in Ec as ->.
    split; [reflexivity|]. by apply rpartition_None.
Qed.

(** A string that contains the separator has a last occurrence of it. *)
Lemma has_char_split sep s :
  PyStr.has_char sep s = true ->
  exists l r, s = l +:+ String sep r /\ PyStr.has_char sep r = false.
Proof.
  intros H. destruct (PyStr.rpartition sep s) as [[l r]|] eqn:E.
  - exists l, r. by apply rpartition_Some.
  - apply rpartition_None in E. congruence.
Qed.

End StringFacts.

(* ===================================================================== *)
(** * The pluralizer meets its rule *)
(* ===================================================================== *)

Lemma get_plural_pluralize kind :
  kind <> "" -> get_plural kind = Ok (pluralize kind).
Proof.
  intros Hk. unfold get_plural, pluralize.
  destruct (String.eqb (PyStr.lower kind) "endpoints"); [reflexivity|].
  destruct (last_char_Some (PyStr.lower kind)) as [c Hc].
  { by rewrite lower_empty_iff. }
  rewrite Hc, !(endswith_last_char _ _ _ Hc).
  destruct (Ascii.eqb c "s"); [reflexivity|].
  destruct (Ascii.eqb c "y"); reflexivity.
Qed.

(** C3.  The pluraliser computes the rule of the specification: for every
    non-empty kind, [get_plural] returns what the rule (lower-case; keep
    "endpoints"; "s" gets "es"; "y" becomes "ies"; else append "s") gives.
    The outcome depends on the lower-cased kind alone, so the function is
    case-insensitive, and the five examples of the specification hold. *)
Theorem get_plural_follows_rule :
  (forall kind, kind <> "" -> get_plural kind = Ok (pluralize kind)) /\
  (forall k1 k2, PyStr.lower k1 = PyStr.lower k2 -> get_plural k1 = get_plural k2) /\
  (forall kind, get_plural (PyStr.lower kind) = get_plural kind) /\
  get_plural "pod" = Ok "pods" /\
  get_plural "policy" = Ok "policies" /\
  get_plural "endpoints" = Ok "endpoints" /\
  get_plural "ingress" = Ok "ingresses" /\
  get_plural "Deployment" = Ok "deployments".
Proof.
  split; [exact get_plural_pluralize|].
  split; [intros k1 k2 H; unfold get_plural; by rewrite H|].
  split; [intros k; unfold get_plural; by rewrite lower_idem|].
  repeat split; reflexivity.
Qed.

Lemma get_plural_follows_rule_witness :
  get_plural "Deployment" = Ok (pluralize "Deployment") /\
  get_plural "POLICY" = get_plural "policy".
Proof.
  split.
  - apply (proj1 get_plural_follows_rule "Deployment"). discriminate.
  - apply (proj1 (proj2 get_plural_follows_rule) "POLICY" "policy"). reflexivity.
Defined.

(** C9.  The pluraliser is partial at the empty string and nowhere else: on
    [""] the indexing of the last character raises IndexError, and on every
    non-empty input the function returns a string. *)
Theorem get_plural_partial_at_empty :
  get_plural "" = Raise IndexError /\
  (forall kind, kind <> "" -> exists plural, get_plural kind = Ok plural) /\
  (forall kind plural, get_plural kind = Ok plural -> kind <> "").
Proof.
  split; [reflexivity|]. split.
  - intros kind Hk. exists (pluralize kind). by apply get_plural_pluralize.
  - intros kind plural H ->. discriminate.
Qed.

Lemma get_plural_partial_at_empty_witness :
  exists plural, get_plural "Widget" = Ok plural.
Proof.
  apply (proj1 (proj2 get_plural_partial_at_empty) "Widget"). discriminate.
Defined.

(* ===================================================================== *)
(** * How the operations run *)
(* ===================================================================== *)

(** Unfolds the monad so that a run reduces to its outcome and trace. *)
Ltac run :=
  unfold mbind, M_bind, mret, M_ret, raise, lift, emit, try_except_ApiException;
  simpl.

Section Runs.

Context (w : World).

Lemma sent_app t1 t2 : sent (t1 ++ t2) = sent t1 ++ sent t2.
Proof. unfold sent. apply omap_app. Qed.

Lemma requests_app t1 t2 : requests (t1 ++ t2) = requests t1 ++ requests t2.
Proof. unfold requests. by rewrite sent_app, fmap_app. Qed.

(** The loader, case by case. *)
Lemma load_body_unset file :
  Py.truthy_path file = false ->
  load_body w PNone file =
    (Raise (ActivityFailed
              "Either `body_as_object` or `body_as_yaml_file` must be set"), []).
Proof. intros H. unfold load_body. simpl. by rewrite H. Qed.

Lemma load_body_object obj file :
  Py.is_none obj = false -> load_body w obj file = (Ok obj, []).
Proof. intros H. unfold load_body. by rewrite H. Qed.

Lemma load_body_not_a_file path :
  path <> "" -> isfile w path = false ->
  load_body w PNone (Some path) =
    (Raise (ActivityFailed ("Path '" +:+ path +:+ "' is not a valid resource file")),
     []).
Proof.
  intros Hp Hf. unfold load_body. simpl.
  apply String.eqb_neq in Hp. by rewrite Hp, Hf.
Qed.

Lemma load_body_file path :
  path <> "" -> isfile w path = true ->
  load_body w PNone (Some path) =
    (match file_text w path with
     | Some text => decoded (yaml_decode w text)
     | None => Raise OSError
     end, [FileRead path]).
Proof.
  intros Hp Hf. unfold load_body, read, yaml_safe_load. simpl.
  apply String.eqb_neq in Hp. rewrite Hp, Hf. run.
  destruct (file_text w path) as [text|]; reflexivity.
Qed.

(** The loader sends nothing to the server. *)
Lemma load_body_sent obj file : sent (load_body w obj file).2 = [].
Proof.
  unfold load_body, read, yaml_safe_load.
  destruct (Py.is_none obj && negb (Py.truthy_path file)); [reflexivity|].
  destruct (negb (Py.is_none obj)); [reflexivity|].
  destruct (negb (isfile w (default "" file))); [reflexivity|].
  run. destruct (file_text w _) as [text|]; reflexivity.
Qed.

(** One request and the decoding of its answer, under a handler for the
    client's exception. *)
Lemma request_run api call (handler : Z -> string -> string -> M pyval) :
  try_except_ApiException (r ← call_api w api call; json_loads w r) handler =
  let rsp := api_server w (default_headers api) call in
  if is_2xx (status rsp) then
    (decoded (json_decode w (data rsp)), [ApiRequest (default_headers api) call])
  else
    ((handler (status rsp) (reason rsp) (data rsp)).1,
     ApiRequest (default_headers api) call ::
       (handler (status rsp) (reason rsp) (data rsp)).2).
Proof.
  unfold call_api, json_loads. cbv zeta.
  destruct (is_2xx _); run.
  - destruct (json_decode w _); reflexivity.
  - destruct (handler _ _ _); reflexivity.
Qed.

Lemma bind_Ok {A B} (m : M A) (k : A -> M B) a t :
  m = (Ok a, t) -> (m ≫= k) = ((k a).1, t ++ (k a).2).
Proof. intros ->. run. destruct (k a); reflexivity. Qed.

Lemma bind_Raise {A B} (m : M A) (k : A -> M B) e t :
  m = (Raise e, t) -> (m ≫= k) = (Raise e, t).
Proof. intros ->. reflexivity. Qed.

Ltac op_run H :=
  rewrite (bind_Ok _ _ _ _ H), request_run; cbv zeta;
  unfold json_patch, set_default_header; cbn [default_headers];
  repeat match goal with |- context [if ?b then _ else _] => destruct b end;
  simpl; rewrite ?app_nil_r; reflexivity.

Lemma load_fails_run {A} (k : pyval -> M A) resource file e t :
  load_body w resource file = (Raise e, t) ->
  (load_body w resource file ≫= k) = (Raise e, t).
Proof. apply bind_Raise. Qed.

Lemma create_custom_object_run g v p ns resource file secrets body t :
  load_body w resource file = (Ok body, t) ->
  create_custom_object w g v p ns resource file secrets =
    let hdrs := default_headers (create_k8s_api_client w secrets) in
    let call := create_namespaced_custom_object g v ns p body in
    let rsp := api_server w hdrs call in
    if is_2xx (status rsp) then
      (decoded (json_decode w (data rsp)), t ++ [ApiRequest hdrs call])
    else if status rsp =? 409 then
      (decoded (json_decode w (data rsp)),
       t ++ [ApiRequest hdrs call; already_exists_note g v])
    else
      (Raise (failure "create" rsp), t ++ [ApiRequest hdrs call]).
Proof. intros H. unfold create_custom_object. op_run H. Qed.

Lemma create_cluster_custom_object_run g v p resource file secrets body t :
  load_body w resource file = (Ok body, t) ->
  create_cluster_custom_object w g v p resource file secrets =
    let hdrs := default_headers (create_k8s_api_client w secrets) in
    let call := create_cluster_custom_object_ g v p body in
    let rsp := api_server w hdrs call in
    if is_2xx (status rsp) then
      (decoded (json_decode w (data rsp)), t ++ [ApiRequest hdrs call])
    else if status rsp =? 409 then
      (decoded (json_decode w (data rsp)),
       t ++ [ApiRequest hdrs call; already_exists_note g v])
    else
      (Raise (ActivityFailed
                "Failed to create custom resource object: '{x.reason}' {x.body}"),
       t ++ [ApiRequest hdrs call]).
Proof. intros H. unfold create_cluster_custom_object. op_run H. Qed.

Lemma delete_custom_object_run g v p name ns secrets :
  delete_custom_object w g v p name ns secrets =
    let hdrs := default_headers (create_k8s_api_client w secrets) in
    let call := delete_namespaced_custom_object g v ns p name in
    let rsp := api_server w hdrs call in
    (if is_2xx (status rsp) then decoded (json_decode w (data rsp))
     else Raise (failure "delete" rsp),
     [ApiRequest hdrs call]).
Proof.
  unfold delete_custom_object. rewrite request_run. cbv zeta.
  destruct (is_2xx _); reflexivity.
Qed.

Lemma delete_cluster_custom_object_run g v p name secrets :
  delete_cluster_custom_object w g v p name secrets =
    let hdrs := default_headers (create_k8s_api_client w secrets) in
    let call := delete_cluster_custom_object_ g v p name in
    let rsp := api_server w hdrs call in
    (if is_2xx (status rsp) then decoded (json_decode w (data rsp))
     else Raise (failure "delete" rsp),
     [ApiRequest hdrs call]).
Proof.
  unfold delete_cluster_custom_object. rewrite request_run. cbv zeta.
  destruct (is_2xx _); reflexivity.
Qed.

Lemma patch_custom_object_run g v p name ns force resource file secrets body t :
  load_body w resource file = (Ok body, t) ->
  patch_custom_object w g v p name ns force resource file secrets =
    let hdrs := <["Content-Type" := json_patch]>
                  (default_headers (create_k8s_api_client w secrets)) in
    let call := patch_namespaced_custom_object g v ns p name body in
    let rsp := api_server w hdrs call in
    (if is_2xx (status rsp) then decoded (json_decode w (data rsp))
     else Raise (failure "patch" rsp),
     t ++ [ApiRequest hdrs call]).
Proof. intros H. unfold patch_custom_object. op_run H. Qed.

Lemma patch_cluster_custom_object_run g v p name force resource file secrets body t :
  load_body w resource file = (Ok body, t) ->
  patch_cluster_custom_object w g v p name force resource file secrets =
    let hdrs := <["Content-Type" := json_patch]>
                  (default_headers (create_k8s_api_client w secrets)) in
    let call := patch_cluster_custom_object_ g v p name body in
    let rsp := api_server w hdrs call in
    (if is_2xx (status rsp) then decoded (json_decode w (data rsp))
     else Raise (failure "patch" rsp),
     t ++ [ApiRequest hdrs call]).
Proof. intros H. unfold patch_cluster_custom_object. op_run H. Qed.

(** The replace operations stop at the call: the client refuses the
    keyword [force]. *)
Lemma replace_custom_object_run g v p name ns force resource file secrets body t :
  load_body w resource file = (Ok body, t) ->
  replace_custom_object w g v p name ns force resource file secrets =
    (Raise ApiTypeError, t).
Proof.
  intros H. unfold replace_custom_object. rewrite (bind_Ok _ _ _ _ H).
  unfold call_api_with_force. run. by rewrite app_nil_r.
Qed.

Lemma replace_cluster_custom_object_run g v p name force resource file secrets body t :
  load_body w resource file = (Ok body, t) ->
  replace_cluster_custom_object w g v p name force resource file secrets =
    (Raise ApiTypeError, t).
Proof.
  intros H. unfold replace_cluster_custom_object. rewrite (bind_Ok _ _ _ _ H).
  unfold call_api_with_force. run. by rewrite app_nil_r.
Qed.

End Runs.

(* ===================================================================== *)
(** * The loader *)
(* ===================================================================== *)

Lemma contains_infix pre needle post : PyStr.contains needle (pre +:+ needle +:+ post).
Proof. by exists pre, post. Qed.

Lemma contains_empty hay : PyStr.contains "" hay.
Proof. by exists "", hay. Qed.

(** C5.  The loader: with no object and no path (or an empty one) it fails
    with ActivityFailed; with only a path that names no regular file it
    fails with ActivityFailed, and the message names the path; an object
    that is given is returned as it is, whatever the path; otherwise the
    file is read and its text decoded as YAML, and the read is the only
    thing that happens. *)
Theorem load_body_contract (w : World) :
  (forall file, Py.truthy_path file = false ->
     exists msg, load_body w PNone file = (Raise (ActivityFailed msg), [])) /\
  (forall path, isfile w path = false ->
     exists msg, load_body w PNone (Some path) = (Raise (ActivityFailed msg), []) /\
                 PyStr.contains path msg /\
                 (path <> "" ->
                  msg = "Path '" +:+ path +:+ "' is not a valid resource file")) /\
  (forall obj file, obj <> PNone -> load_body w obj file = (Ok obj, [])) /\
  (forall path, path <> "" -> isfile w path = true ->
     load_body w PNone (Some path) =
       (match file_text w path with
        | Some text => decoded (yaml_decode w text)
        | None => Raise OSError
        end, [FileRead path])).
Proof.
  repeat split.
  - intros file H. eexists. by apply load_body_unset.
  - intros path Hf. destruct (decide (path = "")) as [->|Hp].
    + eexists. split; [by apply load_body_unset|].
      split; [apply contains_empty | done].
    + eexists. split; [by apply load_body_not_a_file|].
      split; [apply (contains_infix "Path '") | done].
  - intros obj file H. apply load_body_object. by destruct obj.
  - intros path Hp Hf. by apply load_body_file.
Qed.

Lemma load_body_contract_witness :
  (exists msg, load_body (Example.world Example.created) PNone None =
               (Raise (ActivityFailed msg), [])) /\
  (exists msg, load_body (Example.world Example.created) PNone (Some "nope.yaml") =
               (Raise (ActivityFailed msg), []) /\
               PyStr.contains "nope.yaml" msg /\
               ("nope.yaml" <> "" ->
                msg = "Path '" +:+ "nope.yaml" +:+ "' is not a valid resource file")) /\
  load_body (Example.world Example.created) Example.resize (Some "nope.yaml") =
    (Ok Example.resize, []) /\
  load_body (Example.world Example.created) PNone (Some "widget.yaml") =
    (Ok Example.widget, [FileRead "widget.yaml"]).
Proof.
  pose proof (load_body_contract (Example.world Example.created))
    as (Hunset & Hnofile & Hobj & Hfile).
  split; [apply (Hunset None); reflexivity|].
  split; [apply (Hnofile "nope.yaml"); reflexivity|].
  split; [apply (Hobj Example.resize (Some "nope.yaml")); discriminate|].
  apply (Hfile "widget.yaml"); [discriminate | reflexivity].
Defined.

(* ===================================================================== *)
(** * Create on conflict *)
(* ===================================================================== *)

Lemma load_body_requests (w : World) obj file body t :
  load_body w obj file = (body, t) -> requests t = [].
Proof.
  intros H. pose proof (load_body_sent w obj file) as Hs.
  rewrite H in Hs. unfold requests. simpl in Hs. by rewrite Hs.
Qed.

(** C1.  Create on conflict, for the namespaced and the cluster-wide
    operation: when the server answers the create request with 409, the
    operation does not raise but returns the decoded body of that answer,
    and the create request is the only request it sends (nothing updates
    the object that is there). *)
Theorem create_on_conflict_returns_body (w : World) (secrets : Secrets) :
  let hdrs := default_headers (create_k8s_api_client w secrets) in
  (forall g v p ns resource file body t rsn b obj,
     load_body w resource file = (Ok body, t) ->
     api_server w hdrs (create_namespaced_custom_object g v ns p body) =
       HttpResponse 409 rsn b ->
     json_decode w b = Some obj ->
     (create_custom_object w g v p ns resource file secrets).1 = Ok obj /\
     requests (create_custom_object w g v p ns resource file secrets).2 =
       [create_namespaced_custom_object g v ns p body]) /\
  (forall g v p resource file body t rsn b obj,
     load_body w resource file = (Ok body, t) ->
     api_server w hdrs (create_cluster_custom_object_ g v p body) =
       HttpResponse 409 rsn b ->
     json_decode w b = Some obj ->
     (create_cluster_custom_object w g v p resource file secrets).1 = Ok obj /\
     requests (create_cluster_custom_object w g v p resource file secrets).2 =
       [create_cluster_custom_object_ g v p body]).
Proof.
  cbv zeta. split.
  - intros g v p ns resource file body t rsn b obj Hload Hrsp Hdec.
    rewrite (create_custom_object_run w _ _ _ _ _ _ _ _ _ Hload). cbv zeta.
    rewrite Hrsp. simpl. rewrite Hdec, requests_app.
    by rewrite (load_body_requests _ _ _ _ _ Hload).
  - intros g v p resource file body t rsn b obj Hload Hrsp Hdec.
    rewrite (create_cluster_custom_object_run w _ _ _ _ _ _ _ _ Hload). cbv zeta.
    rewrite Hrsp. simpl. rewrite Hdec, requests_app.
    by rewrite (load_body_requests _ _ _ _ _ Hload).
Qed.

Lemma create_on_conflict_returns_body_witness :
  ((create_custom_object (Example.world Example.conflict) "example.com" "v1"
      "widgets" (PStr "ns1") Example.widget None None).1 = Ok Example.already_exists /\
   requests (create_custom_object (Example.world Example.conflict) "example.com" "v1"
      "widgets" (PStr "ns1") Example.widget None None).2 =
     [create_namespaced_custom_object "example.com" "v1" (PStr "ns1") "widgets"
        Example.widget]) /\
  ((create_cluster_custom_object (Example.world Example.conflict) "example.com" "v1"
      "widgets" Example.widget None None).1 = Ok Example.already_exists /\
   requests (create_cluster_custom_object (Example.world Example.conflict)
      "example.com" "v1" "widgets" Example.widget None None).2 =
     [create_cluster_custom_object_ "example.com" "v1" "widgets" Example.widget]).
Proof.
  pose proof (create_on_conflict_returns_body (Example.world Example.conflict) None)
    as [Hns Hcl].
  split.
  - apply (Hns "example.com" "v1" "widgets" (PStr "ns1") Example.widget None
             Example.widget [] "Conflict" Example.already_exists_json);
      reflexivity.
  - apply (Hcl "example.com" "v1" "widgets" Example.widget None
             Example.widget [] "Conflict" Example.already_exists_json);
      reflexivity.
Defined.

(* ===================================================================== *)
(** * Failures of the API *)
(* ===================================================================== *)

(** A body of plain bytes is its own literal between [b'] and ['']. *)
Lemma escape_all_plain b :
  PyBytes.all_plain b = true ->
  PyBytes.escape_all PyBytes.squote b = b /\ PyStr.has_char PyBytes.squote b = false.
Proof.
  induction b as [|c b IH]; [done|]. cbn [PyBytes.all_plain].
  intros [Hc Hb]%andb_true_iff. destruct (IH Hb) as [IHe IHq].
  cbn [PyBytes.escape_all PyStr.has_char]. rewrite IHe, IHq.
  revert Hc. clear. destruct c as [[] [] [] [] [] [] [] []]; try discriminate;
    intros _; split; reflexivity.
Qed.

Lemma repr_plain b :
  PyBytes.all_plain b = true -> PyBytes.repr b = "b'" +:+ b +:+ "'".
Proof.
  intros [He Hq]%escape_all_plain. unfold PyBytes.repr. rewrite Hq.
  cbn [andb]. cbv zeta. by rewrite He.
Qed.

Lemma failure_contains what rsp :
  exists msg, failure what rsp = ActivityFailed msg /\
              PyStr.contains (reason rsp) msg /\
              PyStr.contains (PyBytes.repr (data rsp)) msg /\
              (PyBytes.all_plain (data rsp) = true -> PyStr.contains (data rsp) msg).
Proof.
  eexists. split; [reflexivity|]. split; [|split].
  - exists ("Failed to " +:+ what +:+ " custom resource object: '"),
           ("' " +:+ PyBytes.repr (data rsp)).
    by rewrite !append_assoc.
  - exists ("Failed to " +:+ what +:+ " custom resource object: '" +:+
            reason rsp +:+ "' "), "".
    by rewrite append_empty_r, !append_assoc.
  - intros Hplain. rewrite (repr_plain _ Hplain).
    exists ("Failed to " +:+ what +:+ " custom resource object: '" +:+
            reason rsp +:+ "' b'"), "'".
    by rewrite !append_assoc.
Qed.

(** Five operations report a failed request with the reason of the answer
    and its body as a bytes literal: the namespaced create on an answer
    that is neither 2xx nor 409, and delete and patch on any answer that is
    not 2xx. *)
Lemma api_failure_reported (w : World) (secrets : Secrets) :
  let hdrs := default_headers (create_k8s_api_client w secrets) in
  let patch_hdrs := <["Content-Type" := json_patch]> hdrs in
  let failed rsp := is_2xx (status rsp) = false in
  (forall g v p ns resource file body t,
     load_body w resource file = (Ok body, t) ->
     let rsp := api_server w hdrs (create_namespaced_custom_object g v ns p body) in
     failed rsp -> status rsp <> 409 ->
     (create_custom_object w g v p ns resource file secrets).1 =
       Raise (failure "create" rsp)) /\
  (forall g v p name ns,
     let rsp := api_server w hdrs (delete_namespaced_custom_object g v ns p name) in
     failed rsp ->
     (delete_custom_object w g v p name ns secrets).1 = Raise (failure "delete" rsp)) /\
  (forall g v p name,
     let rsp := api_server w hdrs (delete_cluster_custom_object_ g v p name) in
     failed rsp ->
     (delete_cluster_custom_object w g v p name secrets).1 =
       Raise (failure "delete" rsp)) /\
  (forall g v p name ns force resource file body t,
     load_body w resource file = (Ok body, t) ->
     let rsp := api_server w patch_hdrs
                  (patch_namespaced_custom_object g v ns p name body) in
     failed rsp ->
     (patch_custom_object w g v p name ns force resource file secrets).1 =
       Raise (failure "patch" rsp)) /\
  (forall g v p name force resource file body t,
     load_body w resource file = (Ok body, t) ->
     let rsp := api_server w patch_hdrs
                  (patch_cluster_custom_object_ g v p name body) in
     failed rsp ->
     (patch_cluster_custom_object w g v p name force resource file secrets).1 =
       Raise (failure "patch" rsp)).
Proof.
  cbv zeta. repeat split.
  - intros g v p ns resource file body t Hload Hst H409.
    rewrite (create_custom_object_run w _ _ _ _ _ _ _ _ _ Hload). cbv zeta.
    rewrite Hst. apply Z.eqb_neq in H409. by rewrite H409.
  - intros. rewrite delete_custom_object_run. cbv zeta. simpl. by rewrite H.
  - intros. rewrite delete_cluster_custom_object_run. cbv zeta. simpl. by rewrite H.
  - intros g v p name ns force resource file body t Hload Hst.
    rewrite (patch_custom_object_run w _ _ _ _ _ _ _ _ _ _ _ Hload).
    cbv zeta. simpl. by rewrite Hst.
  - intros g v p name force resource file body t Hload Hst.
    rewrite (patch_cluster_custom_object_run w _ _ _ _ _ _ _ _ _ _ Hload).
    cbv zeta. simpl. by rewrite Hst.
Qed.

(** The cluster-wide create reports every failed request with one and the
    same message, whatever the server said. *)
Lemma create_cluster_failure_message (w : World) g v p resource file secrets body t :
  load_body w resource file = (Ok body, t) ->
  let rsp := api_server w (default_headers (create_k8s_api_client w secrets))
               (create_cluster_custom_object_ g v p body) in
  is_2xx (status rsp) = false -> status rsp <> 409 ->
  (create_cluster_custom_object w g v p resource file secrets).1 =
    Raise (ActivityFailed
             "Failed to create custom resource object: '{x.reason}' {x.body}").
Proof.
  intros Hload rsp Hst H409.
  rewrite (create_cluster_custom_object_run w _ _ _ _ _ _ _ _ Hload). cbv zeta.
  fold rsp. rewrite Hst. apply Z.eqb_neq in H409. by rewrite H409.
Qed.

(** C2.  The claim fails on the cluster-wide create.  A server that answers
    403 Forbidden makes [create_cluster_custom_object] raise ActivityFailed
    with the message template itself, braces and all: the message contains
    neither the reason of the answer nor its body.  The namespaced create on
    the same answer carries both. *)
Theorem create_cluster_failure_loses_reason_and_body :
  let w := Example.world Example.forbidden in
  let msg := "Failed to create custom resource object: '{x.reason}' {x.body}" in
  (create_cluster_custom_object w "example.com" "v1" "widgets"
     Example.widget None None).1 = Raise (ActivityFailed msg) /\
  requests (create_cluster_custom_object w "example.com" "v1" "widgets"
     Example.widget None None).2 =
    [create_cluster_custom_object_ "example.com" "v1" "widgets" Example.widget] /\
  PyStr.containsb (reason Example.forbidden) msg = false /\
  PyStr.containsb (data Example.forbidden) msg = false /\
  (create_custom_object w "example.com" "v1" "widgets" (PStr "default")
     Example.widget None None).1 = Raise (failure "create" Example.forbidden).
Proof. cbv zeta. repeat split; reflexivity. Qed.

(* ===================================================================== *)
(** * The force flag and the patch header *)
(* ===================================================================== *)

(** C6.  The claim fails on the patch operations: [force] is a parameter of
    [patch_custom_object] and of [patch_cluster_custom_object] that nothing
    reads.  A call with [force=True] and the same call with [force=False]
    run alike, outcome and trace, in every world; in the example world both
    send the one patch request, which has no force argument. *)
Theorem patch_ignores_force :
  (forall (w : World) g v p name ns resource file secrets,
     patch_custom_object w g v p name ns true resource file secrets =
     patch_custom_object w g v p name ns false resource file secrets) /\
  (forall (w : World) g v p name resource file secrets,
     patch_cluster_custom_object w g v p name true resource file secrets =
     patch_cluster_custom_object w g v p name false resource file secrets) /\
  (let w := Example.world Example.created in
   requests (patch_custom_object w "example.com" "v1" "widgets" "w1" "ns1" true
               Example.resize None None).2 =
     [patch_namespaced_custom_object "example.com" "v1" "ns1" "widgets" "w1"
        Example.resize] /\
   requests (patch_custom_object w "example.com" "v1" "widgets" "w1" "ns1" false
               Example.resize None None).2 =
     [patch_namespaced_custom_object "example.com" "v1" "ns1" "widgets" "w1"
        Example.resize]).
Proof. repeat split; reflexivity. Qed.

Lemma sent_patch_header (h0 h : gmap string string) (c0 c : api_call) :
  (h, c) ∈ [(<["Content-Type" := json_patch]> h0, c0)] ->
  h !! "Content-Type" = Some json_patch.
Proof.
  intros Hin. apply list_elem_of_singleton in Hin as [= -> ->].
  apply lookup_insert_eq.
Qed.

Lemma sent_of_failed_load (w : World) {A} (k : pyval -> M A) resource file e t :
  load_body w resource file = (Raise e, t) ->
  sent (load_body w resource file ≫= k).2 = [].
Proof.
  intros H. rewrite (bind_Raise _ _ _ _ H). simpl.
  pose proof (load_body_sent w resource file) as Hs. by rewrite H in Hs.
Qed.

(** What the patch operations send: nothing when the body does not load,
    and else one patch request under the JSON-Patch content type. *)
Lemma patch_custom_object_sent (w : World) g v p name ns force resource file secrets :
  sent (patch_custom_object w g v p name ns force resource file secrets).2 =
    match (load_body w resource file).1 with
    | Ok body =>
        [(<["Content-Type" := json_patch]>
            (default_headers (create_k8s_api_client w secrets)),
          patch_namespaced_custom_object g v ns p name body)]
    | Raise _ => []
    end.
Proof.
  destruct (load_body w resource file) as [[body|e] t] eqn:Hload.
  - rewrite (patch_custom_object_run w _ _ _ _ _ _ _ _ _ _ _ Hload).
    cbv zeta. simpl. rewrite sent_app.
    pose proof (load_body_sent w resource file) as Hs. rewrite Hload in Hs.
    simpl in Hs. by rewrite Hs.
  - unfold patch_custom_object. by rewrite (sent_of_failed_load w _ _ _ _ _ Hload).
Qed.

Lemma patch_cluster_custom_object_sent (w : World) g v p name force resource file secrets :
  sent (patch_cluster_custom_object w g v p name force resource file secrets).2 =
    match (load_body w resource file).1 with
    | Ok body =>
        [(<["Content-Type" := json_patch]>
            (default_headers (create_k8s_api_client w secrets)),
          patch_cluster_custom_object_ g v p name body)]
    | Raise _ => []
    end.
Proof.
  destruct (load_body w resource file) as [[body|e] t] eqn:Hload.
  - rewrite (patch_cluster_custom_object_run w _ _ _ _ _ _ _ _ _ _ Hload).
    cbv zeta. simpl. rewrite sent_app.
    pose proof (load_body_sent w resource file) as Hs. rewrite Hload in Hs.
    simpl in Hs. by rewrite Hs.
  - unfold patch_cluster_custom_object.
    by rewrite (sent_of_failed_load w _ _ _ _ _ Hload).
Qed.

(** C8.  Every request a patch operation sends, namespaced or cluster-wide,
    carries the header Content-Type: application/json-patch+json, whatever
    the default headers of the client were; and whenever the body loads, the
    operation sends exactly one request, the patch. *)
Theorem patch_sends_json_patch (w : World) :
  (forall g v p name ns force resource file secrets h c,
     (h, c) ∈ sent (patch_custom_object w g v p name ns force resource file secrets).2 ->
     h !! "Content-Type" = Some "application/json-patch+json") /\
  (forall g v p name force resource file secrets h c,
     (h, c) ∈ sent (patch_cluster_custom_object w g v p name force resource file secrets).2 ->
     h !! "Content-Type" = Some "application/json-patch+json") /\
  (forall g v p name ns force resource file secrets body t,
     load_body w resource file = (Ok body, t) ->
     exists h,
       sent (patch_custom_object w g v p name ns force resource file secrets).2 =
         [(h, patch_namespaced_custom_object g v ns p name body)] /\
       sent (patch_cluster_custom_object w g v p name force resource file secrets).2 =
         [(h, patch_cluster_custom_object_ g v p name body)]).
Proof.
  repeat split.
  - intros g v p name ns force resource file secrets h c.
    rewrite patch_custom_object_sent.
    destruct (load_body w resource file).1; [apply sent_patch_header|].
    by intros ?%elem_of_nil.
  - intros g v p name force resource file secrets h c.
    rewrite patch_cluster_custom_object_sent.
    destruct (load_body w resource file).1; [apply sent_patch_header|].
    by intros ?%elem_of_nil.
  - intros g v p name ns force resource file secrets body t Hload.
    eexists. rewrite patch_custom_object_sent, patch_cluster_custom_object_sent.
    rewrite Hload. simpl. split; reflexivity.
Qed.

Lemma patch_sends_json_patch_witness :
  Example.client.(default_headers) !! "Content-Type" = None /\
  <["Content-Type" := "application/json-patch+json"]> Example.client.(default_headers)
    !! "Content-Type" = Some "application/json-patch+json" /\
  exists h,
    sent (patch_custom_object (Example.world Example.created) "example.com" "v1"
            "widgets" "w1" "ns1" false Example.resize None None).2 =
      [(h, patch_namespaced_custom_object "example.com" "v1" "ns1" "widgets" "w1"
             Example.resize)] /\
    sent (patch_cluster_custom_object (Example.world Example.created) "example.com"
            "v1" "widgets" "w1" false Example.resize None None).2 =
      [(h, patch_cluster_custom_object_ "example.com" "v1" "widgets" "w1"
             Example.resize)].
Proof.
  pose proof (patch_sends_json_patch (Example.world Example.created))
    as (Hns & _ & Hone).
  split; [reflexivity|]. split.
  - apply (Hns "example.com" "v1" "widgets" "w1" "ns1" false Example.resize None None
             _ (patch_namespaced_custom_object "example.com" "v1" "ns1" "widgets"
                  "w1" Example.resize)).
    vm_compute. left.
  - apply (Hone "example.com" "v1" "widgets" "w1" "ns1" false Example.resize None None
             Example.resize []).
    reflexivity.
Defined.

(* ===================================================================== *)
(** * Applying a document *)
(* ===================================================================== *)

Lemma lift_Ok_bind {A B} (a : A) (k : A -> M B) : (lift (Ok a) ≫= k) = k a.
Proof. run. by destruct (k a). Qed.

Lemma lift_Raise_bind {A B} e (k : A -> M B) : (lift (Raise e) ≫= k) = raise e.
Proof. reflexivity. Qed.

(** After decoding, both apply operations do the same thing with a document
    whose metadata is absent or a mapping. *)
Lemma apply_metadata (items : list (string * pyval)) :
  Doc.metadata_ok items = true ->
  exists meta, default (PDict []) (Py.lookup items "metadata") = PDict meta /\
               Py.get (PDict meta) "namespace" (PStr "default") =
                 Ok (Doc.namespace_of items).
Proof.
  unfold Doc.metadata_ok, Doc.namespace_of. simpl.
  destruct (Py.lookup items "metadata") as [[| | | | |?|meta]|]; try discriminate;
    intros _; eexists; split; reflexivity.
Qed.

Ltac apply_run Hdec Hmeta :=
  unfold json_loads, yaml_safe_load; rewrite Hdec; cbn [decoded];
  destruct (apply_metadata _ Hmeta) as (meta & Hm & Hns);
  rewrite lift_Ok_bind; cbn [Py.get]; rewrite !lift_Ok_bind;
  rewrite Hm, Hns, lift_Ok_bind;
  unfold apply_document; cbv zeta;
  repeat match goal with |- context [if ?b then _ else _] => destruct b end;
  try reflexivity;
  destruct (Py.rsplit1_pair _ _); [rewrite lift_Ok_bind | reflexivity];
  destruct (get_plural_of _); [by rewrite lift_Ok_bind | reflexivity].

Lemma apply_from_json_document (w : World) text secrets items :
  json_decode w text = Some (PDict items) -> Doc.metadata_ok items = true ->
  apply_from_json w text secrets = apply_document w items text secrets.
Proof. intros Hdec Hmeta. unfold apply_from_json. apply_run Hdec Hmeta. Qed.

Lemma apply_from_yaml_document (w : World) text secrets items :
  yaml_decode w text = Some (PDict items) -> Doc.metadata_ok items = true ->
  apply_from_yaml w text secrets = apply_document w items text secrets.
Proof. intros Hdec Hmeta. unfold apply_from_yaml. apply_run Hdec Hmeta. Qed.

(** The guards of the apply operations fire before anything is sent. *)
Lemma apply_document_missing (w : World) items text secrets :
  Py.lookup items "apiVersion" = None \/ Py.lookup items "kind" = None ->
  exists msg, apply_document w items text secrets = (Raise (ActivityFailed msg), []) /\
              (msg = "missing apiVersion in resource" \/
               msg = "missing kind in resource").
Proof.
  intros H. unfold apply_document. cbv zeta.
  destruct (negb (Py.truthy (default PNone (Py.lookup items "apiVersion")))) eqn:E.
  - eexists. split; [reflexivity | by left].
  - destruct H as [H|H]; rewrite H in *; [discriminate|].
    eexists. split; [reflexivity | by right].
Qed.

(** C4, amended.  A resource document (a mapping whose metadata, if any, is
    a mapping) that has no apiVersion, or no kind, makes [apply_from_json]
    and [apply_from_yaml] fail with ActivityFailed, and the trace of the
    call is empty: nothing was sent to the server. *)
Theorem apply_rejects_missing_fields (w : World) text secrets items :
  Doc.metadata_ok items = true ->
  Py.lookup items "apiVersion" = None \/ Py.lookup items "kind" = None ->
  (json_decode w text = Some (PDict items) ->
   exists msg, apply_from_json w text secrets = (Raise (ActivityFailed msg), []) /\
               (msg = "missing apiVersion in resource" \/
                msg = "missing kind in resource")) /\
  (yaml_decode w text = Some (PDict items) ->
   exists msg, apply_from_yaml w text secrets = (Raise (ActivityFailed msg), []) /\
               (msg = "missing apiVersion in resource" \/
                msg = "missing kind in resource")).
Proof.
  intros Hmeta Hmiss. split; intros Hdec.
  - rewrite (apply_from_json_document w _ _ _ Hdec Hmeta).
    by apply apply_document_missing.
  - rewrite (apply_from_yaml_document w _ _ _ Hdec Hmeta).
    by apply apply_document_missing.
Qed.

Lemma apply_rejects_missing_fields_witness :
  (exists msg,
     apply_from_json (Example.world Example.created) Example.no_api_version_json None =
       (Raise (ActivityFailed msg), []) /\
     (msg = "missing apiVersion in resource" \/ msg = "missing kind in resource")) /\
  (exists msg,
     apply_from_yaml (Example.world Example.created) Example.no_kind_yaml None =
       (Raise (ActivityFailed msg), []) /\
     (msg = "missing apiVersion in resource" \/ msg = "missing kind in resource")).
Proof.
  split.
  - apply (apply_rejects_missing_fields (Example.world Example.created)
             Example.no_api_version_json None [("kind", PStr "Widget")]);
      [reflexivity | left; reflexivity | reflexivity].
  - apply (apply_rejects_missing_fields (Example.world Example.created)
             Example.no_kind_yaml None
             [("apiVersion", PStr "example.com/v1");
              ("metadata", PDict [("name", PStr "w1")])]);
      [reflexivity | right; reflexivity | reflexivity].
Defined.

(** C4, as stated for every document, fails: a YAML document without
    apiVersion whose metadata is left empty, and a JSON text that holds a
    list, make the call raise AttributeError, not ActivityFailed. *)
Lemma apply_missing_api_version_raises_attribute_error :
  yaml_decode Malformed.world Malformed.null_metadata_yaml =
    Some (PDict [("kind", PStr "Widget"); ("metadata", PNone)]) /\
  Py.lookup [("kind", PStr "Widget"); ("metadata", PNone)] "apiVersion" = None /\
  apply_from_yaml Malformed.world Malformed.null_metadata_yaml None =
    (Raise AttributeError, []) /\
  json_decode Malformed.world Malformed.list_json = Some (PList []) /\
  apply_from_json Malformed.world Malformed.list_json None =
    (Raise AttributeError, []).
Proof. repeat split; reflexivity. Qed.

(** Outside that domain the guards are not reached: metadata that is there
    but is no mapping makes the namespace lookup raise AttributeError
    first. *)
Lemma apply_metadata_not_a_mapping (w : World) text secrets items :
  json_decode w text = Some (PDict items) ->
  Doc.metadata_ok items = false ->
  apply_from_json w text secrets = (Raise AttributeError, []).
Proof.
  intros Hdec Hmeta. unfold apply_from_json, json_loads. rewrite Hdec.
  cbn [decoded]. rewrite lift_Ok_bind. cbn [Py.get]. rewrite !lift_Ok_bind.
  unfold Doc.metadata_ok in Hmeta.
  destruct (Py.lookup items "metadata") as [[| | | | | |]|]; try discriminate;
    reflexivity.
Qed.

(** What a create call with a text for its body sends. *)
Lemma create_custom_object_of_text (w : World) g v p ns text secrets :
  requests (create_custom_object w g v p ns (PStr text) None secrets).2 =
    [create_namespaced_custom_object g v ns p (PStr text)].
Proof.
  rewrite (create_custom_object_run w g v p ns (PStr text) None secrets
             (PStr text) []) by reflexivity.
  cbv zeta. repeat match goal with |- context [if ?b then _ else _] => destruct b end;
    reflexivity.
Qed.

Lemma apply_document_split (w : World) items text secrets a k g v :
  Py.lookup items "apiVersion" = Some (PStr a) ->
  Py.lookup items "kind" = Some (PStr k) -> k <> "" ->
  a = g +:+ "/" +:+ v -> PyStr.has_char "/" v = false ->
  apply_document w items text secrets =
    create_custom_object w g v (pluralize k) (Doc.namespace_of items) (PStr text)
      None secrets.
Proof.
  intros Ha Hk Hk0 -> Hv. change ("/" +:+ v) with (String "/" v) in *.
  unfold apply_document. rewrite Ha, Hk. cbn.
  apply String.eqb_neq in Hk0 as Hk1. rewrite Hk1. cbn.
  assert (String.eqb (g +:+ String "/" v) "" = false) as ->.
  { apply String.eqb_neq. by destruct g. }
  cbn. unfold PyStr.rsplit1. rewrite (rpartition_app "/" g v Hv).
  by rewrite (get_plural_pluralize k Hk0).
Qed.

Lemma apply_document_no_slash (w : World) items text secrets a k :
  Py.lookup items "apiVersion" = Some (PStr a) -> a <> "" ->
  Py.lookup items "kind" = Some (PStr k) -> k <> "" ->
  PyStr.has_char "/" a = false ->
  apply_document w items text secrets = (Raise ValueError, []).
Proof.
  intros Ha Ha0 Hk Hk0 Hno. unfold apply_document. rewrite Ha, Hk. cbn.
  apply String.eqb_neq in Ha0, Hk0. rewrite Ha0, Hk0. cbn.
  unfold PyStr.rsplit1. apply rpartition_None in Hno. by rewrite Hno.
Qed.

(** C10.  In a document that passes the two guards (kind is a non-empty
    string; metadata is absent or a mapping), an apiVersion that is a
    non-empty string without "/" makes both apply operations raise
    ValueError, not ActivityFailed, before anything is sent; and an
    apiVersion with one "/" or more is split at its last "/": what stands
    before it, earlier slashes included, is the group, what stands after it
    is the version, and the create call goes out with these.  Every
    apiVersion that contains a "/" has such a split. *)
Theorem api_version_split_at_last_slash (w : World) text secrets items a k :
  Doc.metadata_ok items = true ->
  Py.lookup items "apiVersion" = Some (PStr a) -> a <> "" ->
  Py.lookup items "kind" = Some (PStr k) -> k <> "" ->
  (PyStr.has_char "/" a = true ->
   exists g v, a = g +:+ "/" +:+ v /\ PyStr.has_char "/" v = false) /\
  (json_decode w text = Some (PDict items) ->
   (PyStr.has_char "/" a = false ->
    apply_from_json w text secrets = (Raise ValueError, [])) /\
   (forall g v, a = g +:+ "/" +:+ v -> PyStr.has_char "/" v = false ->
      apply_from_json w text secrets =
        create_custom_object w g v (pluralize k) (Doc.namespace_of items)
          (PStr text) None secrets /\
      requests (apply_from_json w text secrets).2 =
        [create_namespaced_custom_object g v (Doc.namespace_of items) (pluralize k)
           (PStr text)])) /\
  (yaml_decode w text = Some (PDict items) ->
   (PyStr.has_char "/" a = false ->
    apply_from_yaml w text secrets = (Raise ValueError, [])) /\
   (forall g v, a = g +:+ "/" +:+ v -> PyStr.has_char "/" v = false ->
      apply_from_yaml w text secrets =
        create_custom_object w g v (pluralize k) (Doc.namespace_of items)
          (PStr text) None secrets /\
      requests (apply_from_yaml w text secrets).2 =
        [create_namespaced_custom_object g v (Doc.namespace_of items) (pluralize k)
           (PStr text)])).
Proof.
  intros Hmeta Ha Ha0 Hk Hk0.
  split; [apply has_char_split|]. split; intros Hdec.
  - rewrite (apply_from_json_document w _ _ _ Hdec Hmeta). split.
    + intros Hno. by apply (apply_document_no_slash w items text secrets a k).
    + intros g v Hsplit Hv.
      rewrite (apply_document_split w items text secrets a k g v Ha Hk Hk0 Hsplit Hv).
      split; [reflexivity | apply create_custom_object_of_text].
  - rewrite (apply_from_yaml_document w _ _ _ Hdec Hmeta). split.
    + intros Hno. by apply (apply_document_no_slash w items text secrets a k).
    + intros g v Hsplit Hv.
      rewrite (apply_document_split w items text secrets a k g v Ha Hk Hk0 Hsplit Hv).
      split; [reflexivity | apply create_custom_object_of_text].
Qed.

Lemma api_version_split_at_last_slash_witness :
  apply_from_json (Example.world Example.created) Example.core_pod_json None =
    (Raise ValueError, []) /\
  requests (apply_from_yaml (Example.world Example.created)
              Example.two_slashes_yaml None).2 =
    [create_namespaced_custom_object "example.com/apps" "v1" (PStr "default")
       "policies" (PStr Example.two_slashes_yaml)].
Proof.
  split.
  - apply (api_version_split_at_last_slash (Example.world Example.created)
             Example.core_pod_json None
             [("apiVersion", PStr "v1"); ("kind", PStr "Pod")] "v1" "Pod");
      reflexivity || discriminate.
  - apply (api_version_split_at_last_slash (Example.world Example.created)
             Example.two_slashes_yaml None
             [("apiVersion", PStr "example.com/apps/v1"); ("kind", PStr "Policy")]
             "example.com/apps/v1" "Policy");
      reflexivity || discriminate.
Defined.

(* ===================================================================== *)
(** * The end-to-end example *)
(* ===================================================================== *)

Lemma namespace_absent_default items :
  Doc.namespace_absent items = true ->
  Doc.metadata_ok items = true /\ Doc.namespace_of items = PStr "default".
Proof.
  unfold Doc.namespace_absent, Doc.metadata_ok, Doc.namespace_of.
  destruct (Py.lookup items "metadata") as [[| | | | | |meta]|]; try discriminate;
    [|done].
  intros H%bool_decide_eq_true. by rewrite H.
Qed.

Lemma apply_document_requests (w : World) items text secrets c :
  c ∈ requests (apply_document w items text secrets).2 ->
  exists g v p, c = create_namespaced_custom_object g v (Doc.namespace_of items) p
                      (PStr text).
Proof.
  unfold apply_document. cbv zeta.
  repeat match goal with |- context [if ?b then _ else _] => destruct b end;
    try by intros ?%elem_of_nil.
  destruct (Py.rsplit1_pair _ _) as [gv|]; [|by intros ?%elem_of_nil].
  destruct (get_plural_of _) as [plural|]; [|by intros ?%elem_of_nil].
  rewrite create_custom_object_of_text. intros ->%list_elem_of_singleton. eauto.
Qed.

(** A document without [metadata.namespace] goes to the namespace "default":
    every request an apply operation sends for it names that namespace. *)
Lemma apply_default_namespace (w : World) text secrets items c :
  Doc.namespace_absent items = true ->
  (json_decode w text = Some (PDict items) ->
   c ∈ requests (apply_from_json w text secrets).2 ->
   exists g v p, c = create_namespaced_custom_object g v (PStr "default") p (PStr text)) /\
  (yaml_decode w text = Some (PDict items) ->
   c ∈ requests (apply_from_yaml w text secrets).2 ->
   exists g v p, c = create_namespaced_custom_object g v (PStr "default") p (PStr text)).
Proof.
  intros [Hmeta Hns]%namespace_absent_default. split; intros Hdec.
  - rewrite (apply_from_json_document w _ _ _ Hdec Hmeta).
    intros H%apply_document_requests. by rewrite Hns in H.
  - rewrite (apply_from_yaml_document w _ _ _ Hdec Hmeta).
    intros H%apply_document_requests. by rewrite Hns in H.
Qed.

(** C7.  The claim fails on the body of the request.  Applying the widget
    document sends exactly one create call, with group "example.com",
    version "v1", namespace "ns1" and plural "widgets"; but its body is the
    text that was passed in, a str, and not the document that text decodes
    to. *)
Theorem apply_sends_text_as_body (w : World) (secrets : Secrets) :
  (json_decode w Example.widget_json = Some Example.widget ->
   requests (apply_from_json w Example.widget_json secrets).2 =
     [create_namespaced_custom_object "example.com" "v1" (PStr "ns1") "widgets"
        (PStr Example.widget_json)]) /\
  (yaml_decode w Example.widget_yaml = Some Example.widget ->
   requests (apply_from_yaml w Example.widget_yaml secrets).2 =
     [create_namespaced_custom_object "example.com" "v1" (PStr "ns1") "widgets"
        (PStr Example.widget_yaml)]) /\
  PStr Example.widget_json <> Example.widget /\
  PStr Example.widget_yaml <> Example.widget.
Proof.
  repeat split; try discriminate; intros Hdec.
  - rewrite (apply_from_json_document w _ _ _ Hdec eq_refl).
    apply create_custom_object_of_text.
  - rewrite (apply_from_yaml_document w _ _ _ Hdec eq_refl).
    apply create_custom_object_of_text.
Qed.

Lemma apply_sends_text_as_body_witness :
  requests (apply_from_json (Example.world Example.created)
              Example.widget_json None).2 =
    [create_namespaced_custom_object "example.com" "v1" (PStr "ns1") "widgets"
       (PStr Example.widget_json)] /\
  requests (apply_from_yaml (Example.world Example.created)
              Example.widget_yaml None).2 =
    [create_namespaced_custom_object "example.com" "v1" (PStr "ns1") "widgets"
       (PStr Example.widget_yaml)].
Proof.
  pose proof (apply_sends_text_as_body (Example.world Example.created) None)
    as (Hjson & Hyaml & _).
  split; [apply Hjson | apply Hyaml]; reflexivity.
Defined.

(* ===================================================================== *)
(** * Worked examples *)
(* ===================================================================== *)

Example rsplit1_two_slashes : PyStr.rsplit1 "/" "a/b/c" = ["a/b"; "c"].
Proof. reflexivity. Qed.

Example rsplit1_no_slash : PyStr.rsplit1 "/" "v1" = ["v1"].
Proof. reflexivity. Qed.

Example get_plural_irregular : get_plural "Analysis" = Ok "analysises".
Proof. reflexivity. Qed.

Example create_from_file :
  create_custom_object (Example.world Example.created) "example.com" "v1" "widgets"
    (PStr "default") PNone (Some "widget.yaml") None =
  (Ok Example.widget,
   [FileRead "widget.yaml";
    ApiRequest (default_headers Example.client)
      (create_namespaced_custom_object "example.com" "v1" (PStr "default") "widgets"
         Example.widget)]).
Proof. reflexivity. Qed.

Example delete_forbidden :
  delete_custom_object (Example.world Example.forbidden) "example.com" "v1" "widgets"
    "w1" "ns1" None =
  (Raise (ActivityFailed
            ("Failed to delete custom resource object: 'Forbidden' b'" +:+
             Example.denied_json +:+ "'")),
   [ApiRequest (default_headers Example.client)
      (delete_namespaced_custom_object "example.com" "v1" "ns1" "widgets" "w1")]).
Proof. reflexivity. Qed.

Example delete_not_found_with_newline :
  (delete_custom_object
     (Example.world (HttpResponse 404 "Not Found" "no such widget
")) "example.com" "v1" "widgets" "w1" "ns1" None).1 =
  Raise (ActivityFailed
           "Failed to delete custom resource object: 'Not Found' b'no such widget\n'").
Proof. reflexivity. Qed.

Example repr_of_bytes :
  PyBytes.repr "it's" = String "b" (String PyBytes.dquote "it's" +:+
                                    String PyBytes.dquote "") /\
  PyBytes.repr (String (ascii_of_nat 200) (String (ascii_of_nat 9) "\")) =
    "b'\xc8\t\\'".
Proof. split; reflexivity. Qed.

Example replace_is_refused :
  replace_custom_object (Example.world Example.created) "example.com" "v1"
    "widgets" "w1" "ns1" true Example.widget None None = (Raise ApiTypeError, []).
Proof. reflexivity. Qed.

(* ===================================================================== *)
(** * What every operation sends *)
(* ===================================================================== *)

Lemma load_body_sent_of (w : World) resource file r t :
  load_body w resource file = (r, t) -> sent t = [].
Proof.
  intros H. pose proof (load_body_sent w resource file) as Hs. by rewrite H in Hs.
Qed.

(** The requests of an operation that loads a body: run lemma [L] when the
    body loads, nothing when it does not. *)
Ltac sent_of_op L unfold_op :=
  match goal with
  | |- context [load_body ?w ?resource ?file] =>
      destruct (load_body w resource file) as [[body|e] t] eqn:Hload;
      [ erewrite L by exact Hload; cbv zeta;
        repeat match goal with |- context [if ?b then _ else _] => destruct b end;
        cbn [snd fst]; rewrite sent_app, (load_body_sent_of _ _ _ _ _ Hload);
        reflexivity
      | unfold_op; rewrite (bind_Raise _ _ _ _ Hload); cbn [snd fst];
        apply (load_body_sent_of _ _ _ _ _ Hload) ]
  end.

Lemma create_custom_object_sent (w : World) g v p ns resource file secrets :
  sent (create_custom_object w g v p ns resource file secrets).2 =
    match (load_body w resource file).1 with
    | Ok body => [(default_headers (create_k8s_api_client w secrets),
                   create_namespaced_custom_object g v ns p body)]
    | Raise _ => []
    end.
Proof. sent_of_op create_custom_object_run ltac:(unfold create_custom_object). Qed.

Lemma create_cluster_custom_object_sent (w : World) g v p resource file secrets :
  sent (create_cluster_custom_object w g v p resource file secrets).2 =
    match (load_body w resource file).1 with
    | Ok body => [(default_headers (create_k8s_api_client w secrets),
                   create_cluster_custom_object_ g v p body)]
    | Raise _ => []
    end.
Proof.
  sent_of_op create_cluster_custom_object_run
    ltac:(unfold create_cluster_custom_object).
Qed.

Lemma replace_custom_object_sent (w : World) g v p name ns force resource file secrets :
  sent (replace_custom_object w g v p name ns force resource file secrets).2 = [].
Proof.
  destruct (load_body w resource file) as [[body|e] t] eqn:Hload.
  - erewrite replace_custom_object_run by exact Hload.
    apply (load_body_sent_of _ _ _ _ _ Hload).
  - unfold replace_custom_object. rewrite (bind_Raise _ _ _ _ Hload).
    apply (load_body_sent_of _ _ _ _ _ Hload).
Qed.

Lemma replace_cluster_custom_object_sent (w : World) g v p name force resource file secrets :
  sent (replace_cluster_custom_object w g v p name force resource file secrets).2 = [].
Proof.
  destruct (load_body w resource file) as [[body|e] t] eqn:Hload.
  - erewrite replace_cluster_custom_object_run by exact Hload.
    apply (load_body_sent_of _ _ _ _ _ Hload).
  - unfold replace_cluster_custom_object. rewrite (bind_Raise _ _ _ _ Hload).
    apply (load_body_sent_of _ _ _ _ _ Hload).
Qed.

Lemma delete_custom_object_sent (w : World) g v p name ns secrets :
  sent (delete_custom_object w g v p name ns secrets).2 =
    [(default_headers (create_k8s_api_client w secrets),
      delete_namespaced_custom_object g v ns p name)].
Proof. by rewrite delete_custom_object_run. Qed.

Lemma delete_cluster_custom_object_sent (w : World) g v p name secrets :
  sent (delete_cluster_custom_object w g v p name secrets).2 =
    [(default_headers (create_k8s_api_client w secrets),
      delete_cluster_custom_object_ g v p name)].
Proof. by rewrite delete_cluster_custom_object_run. Qed.

Lemma apply_from_yaml_metadata_not_a_mapping (w : World) text secrets items :
  yaml_decode w text = Some (PDict items) ->
  Doc.metadata_ok items = false ->
  apply_from_yaml w text secrets = (Raise AttributeError, []).
Proof.
  intros Hdec Hmeta. unfold apply_from_yaml, yaml_safe_load. rewrite Hdec.
  cbn [decoded]. rewrite lift_Ok_bind. cbn [Py.get]. rewrite !lift_Ok_bind.
  unfold Doc.metadata_ok in Hmeta.
  destruct (Py.lookup items "metadata") as [[| | | | | |]|]; try discriminate;
    reflexivity.
Qed.

(** The apply operations, for every text. *)
Lemma apply_from_json_cases (w : World) text secrets :
  apply_from_json w text secrets = apply_decoded w (json_decode w text) text secrets.
Proof.
  unfold apply_decoded.
  destruct (json_decode w text) as [[| | | | | |items]|] eqn:Hdec;
    try (unfold apply_from_json, json_loads; rewrite Hdec; reflexivity).
  destruct (Doc.metadata_ok items) eqn:Hmeta.
  - by apply apply_from_json_document.
  - by apply (apply_metadata_not_a_mapping w text secrets items).
Qed.

Lemma apply_from_yaml_cases (w : World) text secrets :
  apply_from_yaml w text secrets = apply_decoded w (yaml_decode w text) text secrets.
Proof.
  unfold apply_decoded.
  destruct (yaml_decode w text) as [[| | | | | |items]|] eqn:Hdec;
    try (unfold apply_from_yaml, yaml_safe_load; rewrite Hdec; reflexivity).
  destruct (Doc.metadata_ok items) eqn:Hmeta.
  - by apply apply_from_yaml_document.
  - by apply (apply_from_yaml_metadata_not_a_mapping w text secrets items).
Qed.

(** What a create call with a text for its body sends, headers included. *)
Lemma create_of_text_sent (w : World) g v p ns text secrets :
  sent (create_custom_object w g v p ns (PStr text) None secrets).2 =
    [(default_headers (create_k8s_api_client w secrets),
      create_namespaced_custom_object g v ns p (PStr text))].
Proof. by rewrite create_custom_object_sent. Qed.

Lemma apply_decoded_sent_length (w : World) doc text secrets :
  (length (sent (apply_decoded w doc text secrets).2) <= 1)%nat.
Proof.
  unfold apply_decoded.
  destruct doc as [[| | | | | |items]|]; simpl; auto.
  destruct (Doc.metadata_ok items); simpl; auto.
  unfold apply_document. cbv zeta.
  repeat match goal with |- context [if ?b then _ else _] => destruct b end;
    simpl; auto.
  destruct (Py.rsplit1_pair _ _); simpl; auto.
  destruct (get_plural_of _); simpl; auto.
  by rewrite create_of_text_sent.
Qed.

(** X1.  No operation calls the API client more than once, whatever the
    answer: among the events of a run of any of the eight operations and
    the two apply operations there is one call of a client method at most,
    and delete makes exactly one.  The module has no retry loop of its
    own; how often the client's transport puts a call on the wire is not
    counted here. *)
Theorem one_request_at_most (w : World) (secrets : Secrets) :
  (forall g v p ns resource file,
     (length (requests (create_custom_object w g v p ns resource file secrets).2) <= 1)%nat) /\
  (forall g v p resource file,
     (length (requests (create_cluster_custom_object w g v p resource file secrets).2) <= 1)%nat) /\
  (forall g v p name ns,
     (length (requests (delete_custom_object w g v p name ns secrets).2) = 1)%nat) /\
  (forall g v p name,
     (length (requests (delete_cluster_custom_object w g v p name secrets).2) = 1)%nat) /\
  (forall g v p name ns force resource file,
     (length (requests (patch_custom_object w g v p name ns force resource file
                         secrets).2) <= 1)%nat) /\
  (forall g v p name force resource file,
     (length (requests (patch_cluster_custom_object w g v p name force resource file
                         secrets).2) <= 1)%nat) /\
  (forall g v p name ns force resource file,
     (length (requests (replace_custom_object w g v p name ns force resource file
                         secrets).2) <= 1)%nat) /\
  (forall g v p name force resource file,
     (length (requests (replace_cluster_custom_object w g v p name force resource file
                         secrets).2) <= 1)%nat) /\
  (forall text, (length (requests (apply_from_json w text secrets).2) <= 1)%nat) /\
  (forall text, (length (requests (apply_from_yaml w text secrets).2) <= 1)%nat).
Proof.
  unfold requests. repeat split; intros; rewrite length_fmap.
  - rewrite create_custom_object_sent. destruct (load_body _ _ _).1; simpl; auto.
  - rewrite create_cluster_custom_object_sent.
    destruct (load_body _ _ _).1; simpl; auto.
  - by rewrite delete_custom_object_sent.
  - by rewrite delete_cluster_custom_object_sent.
  - rewrite patch_custom_object_sent. destruct (load_body _ _ _).1; simpl; auto.
  - rewrite patch_cluster_custom_object_sent.
    destruct (load_body _ _ _).1; simpl; auto.
  - rewrite replace_custom_object_sent. simpl. auto.
  - rewrite replace_cluster_custom_object_sent. simpl. auto.
  - rewrite apply_from_json_cases. apply apply_decoded_sent_length.
  - rewrite apply_from_yaml_cases. apply apply_decoded_sent_length.
Qed.

(** X2.  The body is loaded before anything is sent: when [load_body]
    raises, each of the six operations that take a body raises the same
    exception with the same trace, and no request goes out. *)
Theorem body_failure_stops_operation (w : World) (secrets : Secrets) resource file e t :
  load_body w resource file = (Raise e, t) ->
  requests t = [] /\
  (forall g v p ns,
     create_custom_object w g v p ns resource file secrets = (Raise e, t)) /\
  (forall g v p,
     create_cluster_custom_object w g v p resource file secrets = (Raise e, t)) /\
  (forall g v p name ns force,
     patch_custom_object w g v p name ns force resource file secrets = (Raise e, t)) /\
  (forall g v p name force,
     patch_cluster_custom_object w g v p name force resource file secrets =
       (Raise e, t)) /\
  (forall g v p name ns force,
     replace_custom_object w g v p name ns force resource file secrets =
       (Raise e, t)) /\
  (forall g v p name force,
     replace_cluster_custom_object w g v p name force resource file secrets =
       (Raise e, t)).
Proof.
  intros Hload. split; [by apply (load_body_requests w resource file (Raise e))|].
  repeat split; intros;
    [ unfold create_custom_object | unfold create_cluster_custom_object
    | unfold patch_custom_object | unfold patch_cluster_custom_object
    | unfold replace_custom_object | unfold replace_cluster_custom_object ];
    apply (bind_Raise _ _ _ _ Hload).
Qed.

Lemma body_failure_stops_operation_witness :
  patch_custom_object (Example.world Example.created) "example.com" "v1" "widgets"
    "w1" "ns1" false PNone (Some "nope.yaml") None =
  (Raise (ActivityFailed "Path 'nope.yaml' is not a valid resource file"), []).
Proof.
  apply (body_failure_stops_operation (Example.world Example.created) None PNone
           (Some "nope.yaml") _ []).
  reflexivity.
Defined.

Lemma reports_failure (run : M pyval) what rsp :
  run.1 = Raise (failure what rsp) -> reports run rsp.
Proof.
  intros H. destruct (failure_contains what rsp) as (msg & Hmsg & Hr & Hb & Hp).
  exists msg. by rewrite H, Hmsg.
Qed.

(** X3.  Five operations report a failed call with what the server said:
    the namespaced create on an answer that is neither 2xx nor 409, and
    both delete and both patch operations on any answer that is not 2xx
    (a 409 included), raise ActivityFailed with a message that contains the
    reason of the answer and its body as the f-string renders bytes, the
    literal [b'...'] with its escapes.  The body stands in the message byte
    for byte when it has only printable ASCII without backslash and single
    quote; a newline in it shows as a backslash and an n. *)
Theorem failed_request_is_reported (w : World) (secrets : Secrets) :
  (forall g v p ns resource file body t,
     load_body w resource file = (Ok body, t) ->
     let rsp := api_server w (client_headers w secrets)
                  (create_namespaced_custom_object g v ns p body) in
     is_2xx (status rsp) = false -> status rsp <> 409 ->
     reports (create_custom_object w g v p ns resource file secrets) rsp) /\
  (forall g v p name ns,
     let rsp := api_server w (client_headers w secrets)
                  (delete_namespaced_custom_object g v ns p name) in
     is_2xx (status rsp) = false ->
     reports (delete_custom_object w g v p name ns secrets) rsp) /\
  (forall g v p name,
     let rsp := api_server w (client_headers w secrets)
                  (delete_cluster_custom_object_ g v p name) in
     is_2xx (status rsp) = false ->
     reports (delete_cluster_custom_object w g v p name secrets) rsp) /\
  (forall g v p name ns force resource file body t,
     load_body w resource file = (Ok body, t) ->
     let rsp := api_server w (patch_headers w secrets)
                  (patch_namespaced_custom_object g v ns p name body) in
     is_2xx (status rsp) = false ->
     reports (patch_custom_object w g v p name ns force resource file secrets) rsp) /\
  (forall g v p name force resource file body t,
     load_body w resource file = (Ok body, t) ->
     let rsp := api_server w (patch_headers w secrets)
                  (patch_cluster_custom_object_ g v p name body) in
     is_2xx (status rsp) = false ->
     reports (patch_cluster_custom_object w g v p name force resource file secrets)
       rsp).
Proof.
  pose proof (api_failure_reported w secrets) as H. cbv zeta in H.
  destruct H as (Hc & Hd & Hdc & Hp & Hpc).
  unfold client_headers, patch_headers. cbv zeta.
  repeat split; intros.
  - eapply reports_failure. by eapply Hc.
  - eapply reports_failure. by eapply Hd.
  - eapply reports_failure. by eapply Hdc.
  - eapply reports_failure. by eapply Hp.
  - eapply reports_failure. by eapply Hpc.
Qed.

Lemma failed_request_is_reported_witness :
  reports (delete_custom_object (Example.world Example.conflict) "example.com" "v1"
             "widgets" "w1" "ns1" None) Example.conflict /\
  reports (patch_custom_object (Example.world Example.forbidden) "example.com" "v1"
             "widgets" "w1" "ns1" true Example.resize None None) Example.forbidden.
Proof.
  pose proof (failed_request_is_reported (Example.world Example.conflict) None)
    as (_ & Hd & _).
  pose proof (failed_request_is_reported (Example.world Example.forbidden) None)
    as (_ & _ & _ & Hp & _).
  split.
  - apply (Hd "example.com" "v1" "widgets" "w1" "ns1"). reflexivity.
  - apply (Hp "example.com" "v1" "widgets" "w1" "ns1" true Example.resize None
             Example.resize []); reflexivity.
Defined.

(* ===================================================================== *)
(** * Answers and their bodies *)
(* ===================================================================== *)

Ltac on_success L Hload Hst :=
  erewrite L by exact Hload; cbv zeta; unfold patch_headers, client_headers in *;
  cbv zeta in Hst; rewrite Hst; reflexivity.

(** X4.  On an answer in 200..299 the create, delete and patch operations
    hand back what [json.loads] makes of the body of the answer, and their
    trace is what loading the body left followed by the one call.  Only
    ApiException is caught: a body that is no JSON makes the operation
    raise the decoder's exception, not ActivityFailed. *)
Theorem success_returns_decoded_body (w : World) (secrets : Secrets) :
  (forall g v p ns resource file body t,
     load_body w resource file = (Ok body, t) ->
     let call := create_namespaced_custom_object g v ns p body in
     let rsp := api_server w (client_headers w secrets) call in
     is_2xx (status rsp) = true ->
     create_custom_object w g v p ns resource file secrets =
       (decoded (json_decode w (data rsp)),
        t ++ [ApiRequest (client_headers w secrets) call])) /\
  (forall g v p resource file body t,
     load_body w resource file = (Ok body, t) ->
     let call := create_cluster_custom_object_ g v p body in
     let rsp := api_server w (client_headers w secrets) call in
     is_2xx (status rsp) = true ->
     create_cluster_custom_object w g v p resource file secrets =
       (decoded (json_decode w (data rsp)),
        t ++ [ApiRequest (client_headers w secrets) call])) /\
  (forall g v p name ns,
     let call := delete_namespaced_custom_object g v ns p name in
     let rsp := api_server w (client_headers w secrets) call in
     is_2xx (status rsp) = true ->
     delete_custom_object w g v p name ns secrets =
       (decoded (json_decode w (data rsp)),
        [ApiRequest (client_headers w secrets) call])) /\
  (forall g v p name,
     let call := delete_cluster_custom_object_ g v p name in
     let rsp := api_server w (client_headers w secrets) call in
     is_2xx (status rsp) = true ->
     delete_cluster_custom_object w g v p name secrets =
       (decoded (json_decode w (data rsp)),
        [ApiRequest (client_headers w secrets) call])) /\
  (forall g v p name ns force resource file body t,
     load_body w resource file = (Ok body, t) ->
     let call := patch_namespaced_custom_object g v ns p name body in
     let rsp := api_server w (patch_headers w secrets) call in
     is_2xx (status rsp) = true ->
     patch_custom_object w g v p name ns force resource file secrets =
       (decoded (json_decode w (data rsp)),
        t ++ [ApiRequest (patch_headers w secrets) call])) /\
  (forall g v p name force resource file body t,
     load_body w resource file = (Ok body, t) ->
     let call := patch_cluster_custom_object_ g v p name body in
     let rsp := api_server w (patch_headers w secrets) call in
     is_2xx (status rsp) = true ->
     patch_cluster_custom_object w g v p name force resource file secrets =
       (decoded (json_decode w (data rsp)),
        t ++ [ApiRequest (patch_headers w secrets) call])).
Proof.
  repeat split.
  - intros g v p ns resource file body t Hload call rsp Hst.
    subst rsp call. on_success create_custom_object_run Hload Hst.
  - intros g v p resource file body t Hload call rsp Hst.
    subst rsp call. on_success create_cluster_custom_object_run Hload Hst.
  - intros g v p name ns call rsp Hst. subst rsp call.
    rewrite delete_custom_object_run. cbv zeta.
    unfold client_headers in *. by rewrite Hst.
  - intros g v p name call rsp Hst. subst rsp call.
    rewrite delete_cluster_custom_object_run. cbv zeta.
    unfold client_headers in *. by rewrite Hst.
  - intros g v p name ns force resource file body t Hload call rsp Hst.
    subst rsp call. on_success patch_custom_object_run Hload Hst.
  - intros g v p name force resource file body t Hload call rsp Hst.
    subst rsp call. on_success patch_cluster_custom_object_run Hload Hst.
Qed.

Lemma success_returns_decoded_body_witness :
  create_custom_object (Example.world Example.created) "example.com" "v1" "widgets"
    (PStr "ns1") PNone (Some "widget.yaml") None =
  (Ok Example.widget,
   [FileRead "widget.yaml";
    ApiRequest (client_headers (Example.world Example.created) None)
      (create_namespaced_custom_object "example.com" "v1" (PStr "ns1") "widgets"
         Example.widget)]) /\
  delete_custom_object (Example.world (HttpResponse 200 "OK" "<html>")) "example.com"
    "v1" "widgets" "w1" "ns1" None =
  (Raise DecodeError,
   [ApiRequest (client_headers (Example.world (HttpResponse 200 "OK" "<html>")) None)
      (delete_namespaced_custom_object "example.com" "v1" "ns1" "widgets" "w1")]).
Proof.
  pose proof (success_returns_decoded_body (Example.world Example.created) None)
    as (Hc & _).
  pose proof (success_returns_decoded_body
                (Example.world (HttpResponse 200 "OK" "<html>")) None)
    as (_ & _ & Hd & _).
  split.
  - apply (Hc "example.com" "v1" "widgets" (PStr "ns1") PNone (Some "widget.yaml")
             Example.widget [FileRead "widget.yaml"]); reflexivity.
  - apply (Hd "example.com" "v1" "widgets" "w1" "ns1"). reflexivity.
Defined.

(** X5.  The create-on-conflict path can itself raise: when the body of the
    409 answer is no JSON, both create operations raise the decoder's
    exception, after the one request and the note in the log. *)
Theorem conflict_body_must_decode (w : World) (secrets : Secrets) :
  (forall g v p ns resource file body t,
     load_body w resource file = (Ok body, t) ->
     let call := create_namespaced_custom_object g v ns p body in
     let rsp := api_server w (client_headers w secrets) call in
     status rsp = 409 -> json_decode w (data rsp) = None ->
     create_custom_object w g v p ns resource file secrets =
       (Raise DecodeError,
        t ++ [ApiRequest (client_headers w secrets) call; already_exists_note g v])) /\
  (forall g v p resource file body t,
     load_body w resource file = (Ok body, t) ->
     let call := create_cluster_custom_object_ g v p body in
     let rsp := api_server w (client_headers w secrets) call in
     status rsp = 409 -> json_decode w (data rsp) = None ->
     create_cluster_custom_object w g v p resource file secrets =
       (Raise DecodeError,
        t ++ [ApiRequest (client_headers w secrets) call; already_exists_note g v])).
Proof.
  split.
  - intros g v p ns resource file body t Hload call rsp Hst Hdec. subst rsp call.
    erewrite create_custom_object_run by exact Hload. cbv zeta.
    unfold client_headers in *. by rewrite Hst, Hdec.
  - intros g v p resource file body t Hload call rsp Hst Hdec. subst rsp call.
    erewrite create_cluster_custom_object_run by exact Hload. cbv zeta.
    unfold client_headers in *. by rewrite Hst, Hdec.
Qed.

Lemma conflict_body_must_decode_witness :
  create_custom_object (Example.world (HttpResponse 409 "Conflict" "<html>"))
    "example.com" "v1" "widgets" (PStr "ns1") Example.widget None None =
  (Raise DecodeError,
   [ApiRequest (client_headers (Example.world (HttpResponse 409 "Conflict" "<html>"))
                  None)
      (create_namespaced_custom_object "example.com" "v1" (PStr "ns1") "widgets"
         Example.widget);
    already_exists_note "example.com" "v1"]).
Proof.
  apply (proj1 (conflict_body_must_decode
                  (Example.world (HttpResponse 409 "Conflict" "<html>")) None)
           "example.com" "v1" "widgets" (PStr "ns1") Example.widget None
           Example.widget []); reflexivity.
Defined.

(* ===================================================================== *)
(** * Force and headers *)
(* ===================================================================== *)



Lemma apply_decoded_sent (w : World) doc text secrets h c :
  (h, c) ∈ sent (apply_decoded w doc text secrets).2 ->
  h = client_headers w secrets /\
  exists g v p ns, c = create_namespaced_custom_object g v ns p (PStr text).
Proof.
  unfold apply_decoded.
  destruct doc as [[| | | | | |items]|]; try by intros ?%elem_of_nil.
  destruct (Doc.metadata_ok items); [|by intros ?%elem_of_nil].
  unfold apply_document. cbv zeta.
  repeat match goal with |- context [if ?b then _ else _] => destruct b end;
    try by intros ?%elem_of_nil.
  destruct (Py.rsplit1_pair _ _); [|by intros ?%elem_of_nil].
  destruct (get_plural_of _); [|by intros ?%elem_of_nil].
  rewrite create_of_text_sent. intros [= -> ->]%list_elem_of_singleton.
  split; [reflexivity | eauto].
Qed.

Ltac headers_of_op L :=
  rewrite L; try destruct (load_body _ _ _).1;
  first [ by intros ?%elem_of_nil | by intros [= -> ->]%list_elem_of_singleton ].

(** X7.  What headers a request carries.  Create, delete, replace and
    apply requests go out under the default headers of the client exactly
    as the factory set them.  A patch request goes out under those headers
    with Content-Type set: every other default header of the client is
    kept as it was. *)
Theorem request_headers (w : World) (secrets : Secrets) (h : gmap string string)
    (c : api_call) :
  (forall g v p ns resource file,
     (h, c) ∈ sent (create_custom_object w g v p ns resource file secrets).2 ->
     h = client_headers w secrets) /\
  (forall g v p resource file,
     (h, c) ∈ sent (create_cluster_custom_object w g v p resource file secrets).2 ->
     h = client_headers w secrets) /\
  (forall g v p name ns,
     (h, c) ∈ sent (delete_custom_object w g v p name ns secrets).2 ->
     h = client_headers w secrets) /\
  (forall g v p name,
     (h, c) ∈ sent (delete_cluster_custom_object w g v p name secrets).2 ->
     h = client_headers w secrets) /\
  (forall g v p name ns force resource file,
     (h, c) ∈ sent (replace_custom_object w g v p name ns force resource file
                      secrets).2 ->
     h = client_headers w secrets) /\
  (forall g v p name force resource file,
     (h, c) ∈ sent (replace_cluster_custom_object w g v p name force resource file
                      secrets).2 ->
     h = client_headers w secrets) /\
  (forall text,
     (h, c) ∈ sent (apply_from_json w text secrets).2 -> h = client_headers w secrets) /\
  (forall text,
     (h, c) ∈ sent (apply_from_yaml w text secrets).2 -> h = client_headers w secrets) /\
  (forall g v p name ns force resource file,
     (h, c) ∈ sent (patch_custom_object w g v p name ns force resource file
                      secrets).2 ->
     forall key, key <> "Content-Type" -> h !! key = client_headers w secrets !! key) /\
  (forall g v p name force resource file,
     (h, c) ∈ sent (patch_cluster_custom_object w g v p name force resource file
                      secrets).2 ->
     forall key, key <> "Content-Type" -> h !! key = client_headers w secrets !! key).
Proof.
  unfold client_headers. repeat split.
  - intros *. headers_of_op create_custom_object_sent.
  - intros *. headers_of_op create_cluster_custom_object_sent.
  - intros *. headers_of_op delete_custom_object_sent.
  - intros *. headers_of_op delete_cluster_custom_object_sent.
  - intros *. headers_of_op replace_custom_object_sent.
  - intros *. headers_of_op replace_cluster_custom_object_sent.
  - intros text. rewrite apply_from_json_cases. by intros [-> _]%apply_decoded_sent.
  - intros text. rewrite apply_from_yaml_cases. by intros [-> _]%apply_decoded_sent.
  - intros g v p name ns force resource file. rewrite patch_custom_object_sent.
    destruct (load_body _ _ _).1; [|by intros ?%elem_of_nil].
    intros [= -> ->]%list_elem_of_singleton key Hkey. by apply lookup_insert_ne.
  - intros g v p name force resource file. rewrite patch_cluster_custom_object_sent.
    destruct (load_body _ _ _).1; [|by intros ?%elem_of_nil].
    intros [= -> ->]%list_elem_of_singleton key Hkey. by apply lookup_insert_ne.
Qed.

Lemma request_headers_witness :
  <["Content-Type" := json_patch]> (default_headers Example.client) !! "User-Agent" =
    client_headers (Example.world Example.created) None !! "User-Agent".
Proof.
  pose proof (request_headers (Example.world Example.created) None
                (<["Content-Type" := json_patch]> (default_headers Example.client))
                (patch_namespaced_custom_object "example.com" "v1" "ns1" "widgets"
                   "w1" Example.resize))
    as (_ & _ & _ & _ & _ & _ & _ & _ & Hpatch & _).
  apply (Hpatch "example.com" "v1" "widgets" "w1" "ns1" false Example.resize None).
  - vm_compute. left.
  - discriminate.
Defined.

(* ===================================================================== *)
(** * The shape of a plural *)
(* ===================================================================== *)

Lemma lower_app a b : PyStr.lower (a +:+ b) = PyStr.lower a +:+ PyStr.lower b.
Proof.
  induction a as [|x a IH]; [reflexivity|].
  change (String (PyStr.lower_char x) (PyStr.lower (a +:+ b)) =
          String (PyStr.lower_char x) (PyStr.lower a +:+ PyStr.lower b)).
  by rewrite IH.
Qed.

Lemma lower_drop_last s : PyStr.lower (PyStr.drop_last s) = PyStr.drop_last (PyStr.lower s).
Proof.
  induction s as [|x s IH]; [reflexivity|].
  destruct s as [|y s]; [reflexivity|].
  change (String (PyStr.lower_char x) (PyStr.lower (PyStr.drop_last (String y s))) =
          String (PyStr.lower_char x) (PyStr.drop_last (PyStr.lower (String y s)))).
  by rewrite IH.
Qed.

Lemma last_char_app a b :
  b <> "" -> PyStr.last_char (a +:+ b) = PyStr.last_char b.
Proof.
  intros Hb. induction a as [|x a IH]; [reflexivity|].
  change (PyStr.last_char (String x (a +:+ b)) = PyStr.last_char b).
  destruct (a +:+ b) as [|y r] eqn:E.
  - destruct a; [change (b = "") in E; congruence | discriminate].
  - rewrite <- IH. reflexivity.
Qed.

(** A plural is in lower case and its last character is "s". *)
Lemma get_plural_shape kind plural :
  get_plural kind = Ok plural ->
  PyStr.lower plural = plural /\ PyStr.last_char plural = Some "s"%char.
Proof.
  unfold get_plural. pose proof (lower_idem kind) as Hk.
  destruct (String.eqb (PyStr.lower kind) "endpoints") eqn:E.
  - intros [= <-]. apply String.eqb_eq in E. rewrite E. by split.
  - destruct (PyStr.last_char (PyStr.lower kind)) as [c|]; [|discriminate].
    destruct (Ascii.eqb c "s"); [|destruct (Ascii.eqb c "y")]; intros [= <-].
    + rewrite lower_app, Hk. split; [reflexivity | by rewrite last_char_app].
    + rewrite lower_app, lower_drop_last, Hk.
      split; [reflexivity | by rewrite last_char_app].
    + rewrite lower_app, Hk. split; [reflexivity | by rewrite last_char_app].
Qed.

(** X8.  Whatever [get_plural] returns is in lower case and ends in "s". *)
Theorem plural_is_lower_case_and_ends_in_s kind plural :
  get_plural kind = Ok plural ->
  PyStr.lower plural = plural /\ PyStr.endswith "s" plural = true.
Proof.
  intros [Hl Hs]%get_plural_shape. split; [exact Hl|].
  by rewrite (endswith_last_char _ _ _ Hs).
Qed.

Lemma plural_is_lower_case_and_ends_in_s_witness :
  PyStr.lower "gatewaies" = "gatewaies" /\ PyStr.endswith "s" "gatewaies" = true.
Proof.
  apply (plural_is_lower_case_and_ends_in_s "GateWay" "gatewaies"). reflexivity.
Defined.

(** X9.  [get_plural] expects a singular: given one of its own results it
    pluralises once more.  The plural of a plural is that plural with "es"
    appended, except for "endpoints", which stays. *)
Theorem plural_of_a_plural kind plural :
  get_plural kind = Ok plural ->
  get_plural plural =
    Ok (if String.eqb plural "endpoints" then plural else plural +:+ "es").
Proof.
  intros [Hl Hs]%get_plural_shape. unfold get_plural. rewrite Hl.
  destruct (String.eqb plural "endpoints"); [reflexivity|].
  by rewrite Hs.
Qed.

Lemma plural_of_a_plural_witness :
  get_plural "pods" = Ok "podses" /\ get_plural "endpoints" = Ok "endpoints".
Proof.
  split.
  - apply (plural_of_a_plural "Pod" "pods"). reflexivity.
  - apply (plural_of_a_plural "endpoint" "endpoints"). reflexivity.
Defined.

(* ===================================================================== *)
(** * Apply, for every text *)
(* ===================================================================== *)

Lemma applies_decoded (w : World) text secrets run doc :
  applies w text secrets run doc -> run = apply_decoded w doc text secrets.
Proof.
  intros [[-> ->]|[-> ->]];
    [apply apply_from_json_cases | apply apply_from_yaml_cases].
Qed.

Lemma default_is_str (o : option pyval) a :
  default PNone o = PStr a -> o = Some (PStr a).
Proof. destruct o; simpl; [congruence | discriminate]. Qed.

Lemma rsplit1_pair_Ok v sep l r :
  Py.rsplit1_pair v sep = Ok (l, r) ->
  v = PStr (l +:+ String sep r) /\ PyStr.has_char sep r = false.
Proof.
  destruct v as [| | | |s| |]; try discriminate. unfold Py.rsplit1_pair, PyStr.rsplit1.
  destruct (PyStr.rpartition sep s) as [[l' r']|] eqn:E; [|discriminate].
  intros [= <- <-]. apply rpartition_Some in E as [-> H]. by split.
Qed.

Lemma get_plural_of_Ok v plural :
  get_plural_of v = Ok plural ->
  exists k, v = PStr k /\ k <> "" /\ plural = pluralize k.
Proof.
  destruct v as [| | | |k| |]; try discriminate. simpl. intros H.
  exists k. split; [reflexivity|].
  assert (k <> "") as Hk by (intros ->; discriminate).
  split; [exact Hk|]. rewrite (get_plural_pluralize k Hk) in H. congruence.
Qed.

Lemma apply_decoded_request (w : World) doc text secrets c :
  c ∈ requests (apply_decoded w doc text secrets).2 ->
  exists items a k g v,
    doc = Some (PDict items) /\
    Py.lookup items "apiVersion" = Some (PStr a) /\
    a = g +:+ "/" +:+ v /\ PyStr.has_char "/" v = false /\
    Py.lookup items "kind" = Some (PStr k) /\ k <> "" /\
    c = create_namespaced_custom_object g v (Doc.namespace_of items) (pluralize k)
          (PStr text).
Proof.
  unfold apply_decoded.
  destruct doc as [[| | | | | |items]|]; try by intros ?%elem_of_nil.
  destruct (Doc.metadata_ok items); [|by intros ?%elem_of_nil].
  unfold apply_document. cbv zeta.
  repeat match goal with |- context [if ?b then _ else _] => destruct b end;
    try by intros ?%elem_of_nil.
  destruct (Py.rsplit1_pair _ _) as [[g v]|] eqn:Hsplit; [|by intros ?%elem_of_nil].
  destruct (get_plural_of _) as [plural|] eqn:Hplural; [|by intros ?%elem_of_nil].
  rewrite create_custom_object_of_text. intros ->%list_elem_of_singleton.
  apply rsplit1_pair_Ok in Hsplit as [Ha Hv].
  apply get_plural_of_Ok in Hplural as (k & Hk & Hk0 & ->).
  apply default_is_str in Ha, Hk.
  exists items, (g +:+ String "/" v), k, g, v. by repeat split.
Qed.

(** X10.  Whatever an apply operation sends comes from a document in good
    shape.  A request of [apply_from_json] or [apply_from_yaml] is a
    namespaced create whose group and version, joined by "/", give back the
    apiVersion of the decoded document (the version has no "/" in it),
    whose plural is the plural of its kind, whose namespace is
    [metadata.namespace] or "default", and whose body is the text that was
    passed in. *)
Theorem apply_request_comes_from_document (w : World) text secrets run doc c :
  applies w text secrets run doc ->
  c ∈ requests run.2 ->
  exists items a k g v,
    doc = Some (PDict items) /\
    Py.lookup items "apiVersion" = Some (PStr a) /\
    a = g +:+ "/" +:+ v /\ PyStr.has_char "/" v = false /\
    Py.lookup items "kind" = Some (PStr k) /\ k <> "" /\
    c = create_namespaced_custom_object g v (Doc.namespace_of items) (pluralize k)
          (PStr text).
Proof. intros ->%applies_decoded. apply apply_decoded_request. Qed.

Lemma apply_request_comes_from_document_witness :
  exists items a k g v,
    Example.decode Example.two_slashes_yaml = Some (PDict items) /\
    Py.lookup items "apiVersion" = Some (PStr a) /\
    a = g +:+ "/" +:+ v /\ PyStr.has_char "/" v = false /\
    Py.lookup items "kind" = Some (PStr k) /\ k <> "" /\
    create_namespaced_custom_object "example.com/apps" "v1" (PStr "default")
      "policies" (PStr Example.two_slashes_yaml) =
    create_namespaced_custom_object g v (Doc.namespace_of items) (pluralize k)
      (PStr Example.two_slashes_yaml).
Proof.
  apply (apply_request_comes_from_document (Example.world Example.created)
           Example.two_slashes_yaml None
           (apply_from_yaml (Example.world Example.created)
              Example.two_slashes_yaml None)).
  - right. split; reflexivity.
  - vm_compute. left.
Defined.

(** X11.  Texts the apply operations cannot use fail before anything is
    sent, and not with ActivityFailed: a text the decoder rejects raises the
    decoder's exception; a decoded value that is no mapping (a list, a
    string, a number, null) raises AttributeError at the first [get]; and a
    mapping whose metadata is there but is no mapping raises AttributeError
    at the namespace lookup, which comes before the checks for apiVersion
    and kind. *)
Theorem apply_unusable_text (w : World) text secrets run doc :
  applies w text secrets run doc ->
  (doc = None -> run = (Raise DecodeError, [])) /\
  (forall v, doc = Some v -> is_mapping v = false -> run = (Raise AttributeError, [])) /\
  (forall items, doc = Some (PDict items) -> Doc.metadata_ok items = false ->
     run = (Raise AttributeError, [])).
Proof.
  intros ->%applies_decoded. unfold apply_decoded. repeat split.
  - by intros ->.
  - intros v -> Hv. by destruct v.
  - intros items -> Hmeta. by rewrite Hmeta.
Qed.

Lemma apply_unusable_text_witness :
  apply_from_json Malformed.world "<html>" None = (Raise DecodeError, []) /\
  apply_from_json Malformed.world Malformed.list_json None =
    (Raise AttributeError, []) /\
  apply_from_yaml Malformed.world Malformed.null_metadata_yaml None =
    (Raise AttributeError, []).
Proof.
  split; [|split].
  - eapply apply_unusable_text; [left; split; reflexivity | reflexivity].
  - eapply (proj1 (proj2 (apply_unusable_text Malformed.world _ None _ _
                            (or_introl (conj eq_refl eq_refl)))));
      reflexivity.
  - eapply (proj2 (proj2 (apply_unusable_text Malformed.world _ None _ _
                            (or_intror (conj eq_refl eq_refl)))));
      reflexivity.
Defined.

(** X12.  The two checks of the apply operations test truth, in order.  An
    apiVersion that is there but false in Python's sense (an empty string,
    0, false, null, an empty list or mapping) is reported as missing; the
    check for apiVersion comes first, so a document that lacks both fields
    is told about apiVersion; and a field that is true but is no string
    (a number, a list) passes its check and raises AttributeError where the
    string method is called.  Nothing is sent in any of these cases. *)
Theorem apply_checks_truth_in_order (w : World) text secrets run items :
  applies w text secrets run (Some (PDict items)) ->
  Doc.metadata_ok items = true ->
  let api_version := default PNone (Py.lookup items "apiVersion") in
  let kind := default PNone (Py.lookup items "kind") in
  (Py.truthy api_version = false ->
   run = (Raise (ActivityFailed "missing apiVersion in resource"), [])) /\
  (Py.truthy api_version = true -> Py.truthy kind = false ->
   run = (Raise (ActivityFailed "missing kind in resource"), [])) /\
  (Py.truthy api_version = true -> Py.truthy kind = true ->
   is_str api_version = false -> run = (Raise AttributeError, [])) /\
  (Py.truthy kind = true -> is_str kind = false ->
   forall g v, api_version = PStr (g +:+ "/" +:+ v) -> run = (Raise AttributeError, [])).
Proof.
  intros ->%applies_decoded Hmeta. unfold apply_decoded. rewrite Hmeta.
  unfold apply_document. cbv zeta. repeat split.
  - by intros ->.
  - by intros -> ->.
  - intros -> -> Hstr. simpl.
    by destruct (default PNone (Py.lookup items "apiVersion")).
  - intros Hk Hstr g v Ha. rewrite Ha, Hk.
    change ("/" +:+ v) with (String "/" v).
    assert (Py.truthy (PStr (g +:+ String "/" v)) = true) as ->.
    { simpl. by destruct g. }
    simpl. unfold PyStr.rsplit1.
    destruct (PyStr.rpartition "/" (g +:+ String "/" v)) as [[l r]|] eqn:E.
    + simpl. by destruct (default PNone (Py.lookup items "kind")).
    + apply rpartition_None in E.
      assert (PyStr.has_char "/" (g +:+ String "/" v) = true) as Hin.
      { clear. induction g as [|x g IH]; simpl; [done|].
        change (Ascii.eqb x "/" || PyStr.has_char "/" (g +:+ String "/" v) = true).
        by rewrite IH, orb_true_r. }
      congruence.
Qed.

Lemma apply_checks_truth_in_order_witness :
  apply_from_json Malformed.world Malformed.empty_api_version_json None =
    (Raise (ActivityFailed "missing apiVersion in resource"), []) /\
  apply_from_json Malformed.world Malformed.numeric_kind_json None =
    (Raise AttributeError, []).
Proof.
  split.
  - eapply (apply_checks_truth_in_order Malformed.world _ _ _
              [("apiVersion", PStr ""); ("kind", PInt 7)]);
      [left; split; reflexivity | reflexivity | reflexivity].
  - eapply (apply_checks_truth_in_order Malformed.world _ _ _
              [("apiVersion", PStr "example.com/v1"); ("kind", PInt 7)]);
      [left; split; reflexivity | reflexivity | reflexivity | reflexivity
      | instantiate (1 := "v1"); instantiate (1 := "example.com"); reflexivity].
Defined.

(** X13.  A text that is both JSON and YAML can go through either apply
    operation: where [json.loads] and [yaml.safe_load] read the same value
    from a text, [apply_from_json] and [apply_from_yaml] run alike, outcome
    and trace. *)
Theorem apply_json_and_yaml_agree (w : World) text secrets doc :
  json_decode w text = Some doc -> yaml_decode w text = Some doc ->
  apply_from_json w text secrets = apply_from_yaml w text secrets.
Proof.
  intros Hj Hy. by rewrite apply_from_json_cases, apply_from_yaml_cases, Hj, Hy.
Qed.

Lemma apply_json_and_yaml_agree_witness :
  apply_from_json (Example.world Example.created) Example.widget_json None =
  apply_from_yaml (Example.world Example.created) Example.widget_json None.
Proof.
  apply (apply_json_and_yaml_agree (Example.world Example.created)
           Example.widget_json None Example.widget); reflexivity.
Defined.

(* ===================================================================== *)
(** * Files *)
(* ===================================================================== *)

Lemma reads_app t1 t2 : reads (t1 ++ t2) = reads t1 ++ reads t2.
Proof. unfold reads. apply omap_app. Qed.

(** The files the loader reads: the path it was given, once, and only when
    there is no object, the path is not empty and names a regular file. *)
Lemma load_body_reads (w : World) obj file :
  reads (load_body w obj file).2 =
    match file with
    | Some path =>
        if Py.is_none obj && negb (String.eqb path "") && isfile w path
        then [path] else []
    | None => []
    end.
Proof.
  unfold load_body, read, yaml_safe_load.
  destruct obj; destruct file as [path|]; try reflexivity. simpl.
  destruct (String.eqb path ""); [reflexivity|]. simpl.
  destruct (isfile w path); [|reflexivity]. simpl. run.
  destruct (file_text w path); reflexivity.
Qed.

(** An operation that loads a body reads what the loader reads. *)
Ltac reads_of_op L unfold_op :=
  match goal with
  | |- context [load_body ?w ?resource ?file] =>
      destruct (load_body w resource file) as [[body|e] t] eqn:Hload;
      [ erewrite L by exact Hload; cbv zeta;
        repeat match goal with |- context [if ?b then _ else _] => destruct b end;
        cbn [snd fst]; rewrite reads_app; cbn; apply app_nil_r
      | unfold_op; rewrite (bind_Raise _ _ _ _ Hload); reflexivity ]
  end.

(** X14.  The code of the module opens no file but the one it was given
    (what the client factory reads to build the client is its own and not
    spoken of here).  The loader opens a path only when no object was
    passed, the path is not empty and [os.path.isfile] accepts it; the
    create, patch and replace operations open what the loader opens and
    nothing else; delete opens none; and the apply operations open none
    either, since they hand the text to the loader as the object. *)
Theorem only_the_given_file_is_read (w : World) (secrets : Secrets) :
  (forall obj file path,
     path ∈ reads (load_body w obj file).2 ->
     obj = PNone /\ file = Some path /\ path <> "" /\ isfile w path = true) /\
  (forall g v p ns resource file,
     reads (create_custom_object w g v p ns resource file secrets).2 =
       reads (load_body w resource file).2) /\
  (forall g v p resource file,
     reads (create_cluster_custom_object w g v p resource file secrets).2 =
       reads (load_body w resource file).2) /\
  (forall g v p name ns force resource file,
     reads (patch_custom_object w g v p name ns force resource file secrets).2 =
       reads (load_body w resource file).2) /\
  (forall g v p name force resource file,
     reads (patch_cluster_custom_object w g v p name force resource file secrets).2 =
       reads (load_body w resource file).2) /\
  (forall g v p name ns force resource file,
     reads (replace_custom_object w g v p name ns force resource file secrets).2 =
       reads (load_body w resource file).2) /\
  (forall g v p name force resource file,
     reads (replace_cluster_custom_object w g v p name force resource file secrets).2 =
       reads (load_body w resource file).2) /\
  (forall g v p name ns, reads (delete_custom_object w g v p name ns secrets).2 = []) /\
  (forall g v p name, reads (delete_cluster_custom_object w g v p name secrets).2 = []) /\
  (forall text, reads (apply_from_json w text secrets).2 = []) /\
  (forall text, reads (apply_from_yaml w text secrets).2 = []).
Proof.
  assert (forall doc text, reads (apply_decoded w doc text secrets).2 = []) as Happly.
  { intros doc text. unfold apply_decoded.
    destruct doc as [[| | | | | |items]|]; try reflexivity.
    destruct (Doc.metadata_ok items); [|reflexivity].
    unfold apply_document. cbv zeta.
    repeat match goal with |- context [if ?b then _ else _] => destruct b end;
      try reflexivity.
    destruct (Py.rsplit1_pair _ _); [|reflexivity].
    destruct (get_plural_of _); [|reflexivity].
    erewrite create_custom_object_run by reflexivity. cbv zeta.
    repeat match goal with |- context [if ?b then _ else _] => destruct b end;
      reflexivity. }
  split.
  { intros obj file path. rewrite load_body_reads.
    destruct file as [q|]; [|by intros ?%elem_of_nil].
    destruct (Py.is_none obj && negb (String.eqb q "") && isfile w q) eqn:E;
      [|by intros ?%elem_of_nil].
    intros ->%list_elem_of_singleton.
    apply andb_true_iff in E as [[E1 E2]%andb_true_iff E3].
    destruct obj; try discriminate.
    apply negb_true_iff, String.eqb_neq in E2. done. }
  repeat split.
  - intros. reads_of_op create_custom_object_run ltac:(unfold create_custom_object).
  - intros. reads_of_op create_cluster_custom_object_run
              ltac:(unfold create_cluster_custom_object).
  - intros. reads_of_op patch_custom_object_run ltac:(unfold patch_custom_object).
  - intros. reads_of_op patch_cluster_custom_object_run
              ltac:(unfold patch_cluster_custom_object).
  - intros. destruct (load_body w resource file) as [[body|e] t] eqn:Hload.
    + by erewrite replace_custom_object_run by exact Hload.
    + unfold replace_custom_object. by rewrite (bind_Raise _ _ _ _ Hload).
  - intros. destruct (load_body w resource file) as [[body|e] t] eqn:Hload.
    + by erewrite replace_cluster_custom_object_run by exact Hload.
    + unfold replace_cluster_custom_object. by rewrite (bind_Raise _ _ _ _ Hload).
  - intros. by rewrite delete_custom_object_run.
  - intros. by rewrite delete_cluster_custom_object_run.
  - intros. by rewrite apply_from_json_cases.
  - intros. by rewrite apply_from_yaml_cases.
Qed.

Lemma only_the_given_file_is_read_witness :
  PNone = PNone /\ Some "widget.yaml" = Some "widget.yaml" /\
  "widget.yaml" <> "" /\
  isfile (Example.world Example.created) "widget.yaml" = true.
Proof.
  apply (proj1 (only_the_given_file_is_read (Example.world Example.created) None)
           PNone (Some "widget.yaml") "widget.yaml").
  vm_compute. left.
Defined.

(** X15.  An operation that is given a file and no object sends what the
    file holds: when the path names a regular file whose text decodes as
    YAML, the loader returns the decoded document after the one read, and
    each create and patch operation hands that document to the client as
    the body of its one call. *)
Theorem body_comes_from_file (w : World) (secrets : Secrets) path text doc :
  path <> "" -> isfile w path = true ->
  file_text w path = Some text -> yaml_decode w text = Some doc ->
  load_body w PNone (Some path) = (Ok doc, [FileRead path]) /\
  (forall g v p ns,
     requests (create_custom_object w g v p ns PNone (Some path) secrets).2 =
       [create_namespaced_custom_object g v ns p doc]) /\
  (forall g v p,
     requests (create_cluster_custom_object w g v p PNone (Some path) secrets).2 =
       [create_cluster_custom_object_ g v p doc]) /\
  (forall g v p name ns force,
     requests (patch_custom_object w g v p name ns force PNone (Some path) secrets).2 =
       [patch_namespaced_custom_object g v ns p name doc]) /\
  (forall g v p name force,
     requests (patch_cluster_custom_object w g v p name force PNone (Some path)
                 secrets).2 =
       [patch_cluster_custom_object_ g v p name doc]).
Proof.
  intros Hp Hf Htext Hdoc.
  assert (load_body w PNone (Some path) = (Ok doc, [FileRead path])) as Hload.
  { rewrite (load_body_file w path Hp Hf), Htext, Hdoc. reflexivity. }
  split; [exact Hload|]. unfold requests.
  repeat split; intros;
    rewrite ?create_custom_object_sent, ?create_cluster_custom_object_sent,
      ?patch_custom_object_sent, ?patch_cluster_custom_object_sent, Hload;
    reflexivity.
Qed.

Lemma body_comes_from_file_witness :
  load_body (Example.world Example.created) PNone (Some "widget.yaml") =
    (Ok Example.widget, [FileRead "widget.yaml"]) /\
  requests (create_cluster_custom_object (Example.world Example.created)
              "example.com" "v1" "widgets" PNone (Some "widget.yaml") None).2 =
    [create_cluster_custom_object_ "example.com" "v1" "widgets" Example.widget].
Proof.
  pose proof (body_comes_from_file (Example.world Example.created) None
                "widget.yaml" Example.widget_yaml Example.widget)
    as (Hload & _ & Hc & _); [discriminate | reflexivity..|].
  split; [exact Hload | apply Hc].
Defined.

(* ===================================================================== *)
(** * Apply and the server *)
(* ===================================================================== *)

(** X16.  Applying a document in good shape, with a namespace that is not
    null, is the namespaced create, with all it does about the answer: on
    2xx the decoded body of the answer is returned; on 409 (the object is
    there already) the decoded body of the answer is returned as well, with
    no error; on any other answer ActivityFailed is raised with the reason
    of the answer and its body as a bytes literal. *)
Theorem apply_answers_like_create (w : World) text secrets run items a k g v :
  applies w text secrets run (Some (PDict items)) ->
  Doc.metadata_ok items = true ->
  Doc.namespace_of items <> PNone ->
  Py.lookup items "apiVersion" = Some (PStr a) ->
  a = g +:+ "/" +:+ v -> PyStr.has_char "/" v = false ->
  Py.lookup items "kind" = Some (PStr k) -> k <> "" ->
  let call := create_namespaced_custom_object g v (Doc.namespace_of items)
                (pluralize k) (PStr text) in
  let rsp := api_server w (client_headers w secrets) call in
  requests run.2 = [call] /\
  (is_2xx (status rsp) = true -> run.1 = decoded (json_decode w (data rsp))) /\
  (status rsp = 409 -> run.1 = decoded (json_decode w (data rsp))) /\
  (is_2xx (status rsp) = false -> status rsp <> 409 -> reports run rsp).
Proof.
  intros ->%applies_decoded Hmeta _ Ha Hsplit Hv Hk Hk0 call rsp.
  unfold apply_decoded. rewrite Hmeta.
  rewrite (apply_document_split w items text secrets a k g v Ha Hk Hk0 Hsplit Hv).
  split; [apply create_custom_object_of_text|].
  rewrite (create_custom_object_run w g v (pluralize k) (Doc.namespace_of items)
             (PStr text) None secrets (PStr text) []) by reflexivity.
  cbv zeta. fold (client_headers w secrets). fold call. fold rsp.
  repeat split.
  - by intros ->.
  - intros H409. rewrite H409. by destruct (is_2xx 409).
  - intros Hst H409. rewrite Hst. apply Z.eqb_neq in H409. rewrite H409.
    by apply (reports_failure _ "create").
Qed.

Lemma apply_answers_like_create_witness :
  requests (apply_from_yaml (Example.world Example.conflict) Example.widget_yaml
              None).2 =
    [create_namespaced_custom_object "example.com" "v1" (PStr "ns1") "widgets"
       (PStr Example.widget_yaml)] /\
  (apply_from_yaml (Example.world Example.conflict) Example.widget_yaml None).1 =
    Ok Example.already_exists.
Proof.
  pose proof (apply_answers_like_create (Example.world Example.conflict)
                Example.widget_yaml None
                (apply_from_yaml (Example.world Example.conflict)
                   Example.widget_yaml None)
                [("apiVersion", PStr "example.com/v1"); ("kind", PStr "Widget");
                 ("metadata", PDict [("namespace", PStr "ns1")]);
                 ("spec", PDict [("size", PInt 3)])]
                "example.com/v1" "Widget" "example.com" "v1"
                (or_intror (conj eq_refl eq_refl)) eq_refl) as H.
  destruct H as (Hreq & _ & H409 & _);
    [discriminate | reflexivity | reflexivity | reflexivity | reflexivity
    | discriminate |].
  split; [exact Hreq | apply H409; reflexivity].
Defined.
